(** * jido-mondo: two agents chatting through an Ollama server

    A shallow embedding of the chat script (the variant with a configurable
    turn cap, a trimmed history and the temperature / repeat-penalty
    pass-through), and the properties of its turn scheduler, of its context
    window and of its gateway to the inference backend.

    Conventions of the embedding:
    - a JavaScript string is the list of its UTF-16 code units;
    - the integers of the settings ([maxTurns], [chatMaxLength]) and the
      counters are in [Z];
    - an object used as a dictionary (the [options] of a request) is a
      [gmap] from property names to values;
    - the code that throws or awaits runs in a state-and-exception monad
      over the run state, which also records the requests sent to the
      backend and what is written to the terminal;
    - the backend is a function from the number of earlier requests and the
      request to a response or a thrown error; what is thrown is an [Error]
      object, read through its [code] and its [message];
    - the terminal is a trace that starts with the chat state: the banner
      that echoes the settings and the messages of a failed load are not in
      it, and writing to the terminal does not fail.

    The two older scripts ([src/main.mjs] and the one with a role per
    viewpoint, both with a fixed cap of ten turns and no trimming) are
    embedded after the main one, in the modules [Older], [Part001] and
    [MainMjs]. *)

From Stdlib Require Import ssreflect ZArith QArith Ascii String.
From stdpp Require Import base option list gmap strings pretty.

Set Warnings "-rewrite-rw".

Local Open Scope Z_scope.
Local Close Scope Q_scope.

(** ** JavaScript strings *)

Definition code_unit := N.
Definition jsstring := list code_unit.

(** A string literal of the source (all of them are ASCII). *)
Definition lit (s : string) : jsstring :=
  Ascii.N_of_ascii <$> String.list_ascii_of_string s.

(** White space and line terminators, as [String.prototype.trim] sees them
    (ECMAScript: WhiteSpace and LineTerminator). *)
Definition isWhiteSpace (c : code_unit) : bool :=
  ((c =? 0x09) || (c =? 0x0A) || (c =? 0x0B) || (c =? 0x0C) || (c =? 0x0D)
   || (c =? 0x20) || (c =? 0xA0) || (c =? 0x1680)
   || ((0x2000 <=? c) && (c <=? 0x200A))
   || (c =? 0x2028) || (c =? 0x2029) || (c =? 0x202F) || (c =? 0x205F)
   || (c =? 0x3000) || (c =? 0xFEFF))%N.

Fixpoint trimStart (s : jsstring) : jsstring :=
  match s with
  | c :: s' => if isWhiteSpace c then trimStart s' else s
  | [] => []
  end.

Definition trimEnd (s : jsstring) : jsstring :=
  reverse (trimStart (reverse s)).

(** [s.trim()] *)
Definition trim (s : jsstring) : jsstring := trimEnd (trimStart s).

(** [s.includes(pat)] *)
Fixpoint includes (s pat : jsstring) : bool :=
  bool_decide (pat `prefix_of` s)
  || match s with
     | [] => false
     | _ :: s' => includes s' pat
     end.

(** [a === b] on strings. *)
Definition str_eq (a b : jsstring) : bool := bool_decide (a = b).

(** Truthiness of a string: every string but the empty one. *)
Definition truthy (s : jsstring) : bool :=
  match s with [] => false | _ => true end.

(** ** Values of the optional settings *)

Inductive JsVal :=
| JUndefined
| JNull
| JNumber (q : Q)
| JString (s : jsstring).

(** [v ?? d] *)
Definition nullish (v d : JsVal) : JsVal :=
  match v with
  | JUndefined | JNull => d
  | _ => v
  end.

(** [v !== undefined] *)
Definition isDefined (v : JsVal) : bool :=
  match v with JUndefined => false | _ => true end.

(** ** Data of the chat *)

(** The [Message] of the source: [{ name, message }]. *)
Record Message := { msg_name : jsstring; msg_message : jsstring }.

Definition MessageList := list Message.

Inductive Role := system | assistant | user.

(** An [ollama.Message]: [{ role, content }]. *)
Record OllamaMessage := { role : Role; content : jsstring }.

(** The request given to [client.chat]. *)
Record ChatRequest := {
  model : jsstring;
  keep_alive : JsVal;
  messages : list OllamaMessage;
  options : gmap string JsVal
}.

(** What [client.chat] resolves to, as far as the script reads it:
    [response?.message?.content]. *)
Record ResponseMessage := { resp_content : option jsstring }.
Record ChatResponse := { resp_message : option ResponseMessage }.

(** A thrown [Error], as far as the script reads it:
    [error.code] and [error.message]. *)
Record JsError := { err_code : option jsstring; err_message : option jsstring }.

(** ** Arrays *)

(** [arr.slice(start)], for an integer [start]. *)
Definition slice {A} (arr : list A) (start : Z) : list A :=
  let len := Z.of_nat (length arr) in
  let k := if start <? 0 then Z.max (len + start) 0 else Z.min start len in
  drop (Z.to_nat k) arr.

(** [trimChatHistory(history, maxLength)] *)
Definition trimChatHistory (history : MessageList) (maxLength : Z) : MessageList :=
  if Z.of_nat (length history) <=? maxLength then history
  else slice history (Z.of_nat (length history) - maxLength).

(** ** Settings *)

(** The parsed settings file: a property that is absent is [None] (or
    [JUndefined] for the ones read with [??]). *)
Module settings.
Record t := {
  agent1Name : option jsstring;
  agent2Name : option jsstring;
  agent1System : option jsstring;
  agent2System : option jsstring;
  initialMessages : option MessageList;
  ollamaHost : option jsstring;
  ollamaModel : option jsstring;
  ollamaKeepAlive : JsVal;
  maxTurns : option Z;
  chatMaxLength : option Z;
  temperature : JsVal;
  repeatPenalty : JsVal
}.
End settings.

(** The globals of the script once the settings are loaded and checked. *)
Record Config := {
  agent1Name : jsstring;
  agent2Name : jsstring;
  agent1System : jsstring;
  agent2System : jsstring;
  initialMessages : MessageList;
  ollamaHost : jsstring;
  ollamaModel : jsstring;
  ollamaKeepAlive : JsVal;
  maxTurns : Z;
  chatMaxLength : Z;
  temperature : JsVal;
  repeatPenalty : JsVal
}.

(** [s || d] on an optional string. *)
Definition str_or (s : option jsstring) (d : jsstring) : jsstring :=
  match s with
  | Some s' => if truthy s' then s' else d
  | None => d
  end.

(** [n || d] on an optional integer. *)
Definition num_or (n : option Z) (d : Z) : Z :=
  match n with
  | Some n' => if n' =? 0 then d else n'
  | None => d
  end.

(** Loading the settings, then the input validation; [None] is
    [process.exit(1)]. *)
Definition loadSettings (s : settings.t) : option Config :=
  match settings.agent1Name s, settings.agent2Name s, settings.initialMessages s with
  | Some a1, Some a2, Some init =>
      if negb (truthy a1) || negb (truthy a2) || bool_decide (length init = 0%nat)
      then None
      else Some {|
        agent1Name := a1;
        agent2Name := a2;
        agent1System := str_or (settings.agent1System s) [];
        agent2System := str_or (settings.agent2System s) [];
        initialMessages := init;
        ollamaHost := str_or (settings.ollamaHost s) (lit "http://localhost:11434");
        ollamaModel := str_or (settings.ollamaModel s) (lit "llama2");
        ollamaKeepAlive := nullish (settings.ollamaKeepAlive s) JUndefined;
        maxTurns := num_or (settings.maxTurns s) 20;
        chatMaxLength := num_or (settings.chatMaxLength s) 20;
        temperature := nullish (settings.temperature s) JUndefined;
        repeatPenalty := nullish (settings.repeatPenalty s) JUndefined
      |}
  | _, _, _ => None
  end.

(** ** The run state and its monad *)

(** What the script does to the terminal. *)
Inductive TermEvent :=
| stdout_write (s : jsstring)
| stdout_clearLine (dir : Z)
| stdout_cursorTo (x : Z)
| console_log (s : jsstring)
| console_error (s : jsstring).

(** The global chat state, with the requests sent to the backend and the
    terminal events so far (oldest first). *)
Record RunState := {
  chatHistory : MessageList;
  turnCount : Z;
  requests : list ChatRequest;
  terminal : list TermEvent
}.

Inductive Completion (A : Type) :=
| Normal (a : A)
| Throw (e : JsError).
Arguments Normal {A} a.
Arguments Throw {A} e.

Definition M (A : Type) : Type := RunState → Completion A * RunState.

#[global] Instance M_ret : MRet M := λ A a st, (Normal a, st).

#[global] Instance M_bind : MBind M := λ A B k m st,
  match m st with
  | (Normal a, st') => k a st'
  | (Throw e, st') => (Throw e, st')
  end.

Definition throw {A} (e : JsError) : M A := λ st, (Throw e, st).

(** [try { body } catch (error) { handler }] *)
Definition try_catch {A} (body : M A) (handler : JsError → M A) : M A := λ st,
  match body st with
  | (Normal a, st') => (Normal a, st')
  | (Throw e, st') => handler e st'
  end.

Definition get : M RunState := λ st, (Normal st, st).

Definition emit (ev : TermEvent) : M () := λ st,
  (Normal (), {| chatHistory := chatHistory st; turnCount := turnCount st;
                 requests := requests st; terminal := terminal st ++ [ev] |}).

(** [turnCount++] *)
Definition incr_turnCount : M () := λ st,
  (Normal (), {| chatHistory := chatHistory st; turnCount := turnCount st + 1;
                 requests := requests st; terminal := terminal st |}).

(** [chatHistory.push(msg)] *)
Definition chatHistory_push (msg : Message) : M () := λ st,
  (Normal (), {| chatHistory := chatHistory st ++ [msg]; turnCount := turnCount st;
                 requests := requests st; terminal := terminal st |}).

(** The backend: the outcome of the [n]-th request (counting from 0). *)
Definition Backend := nat → ChatRequest → Completion (option ChatResponse).

(** [await client.chat(req)] *)
Definition client_chat (backend : Backend) (req : ChatRequest) : M (option ChatResponse) := λ st,
  (backend (length (requests st)) req,
   {| chatHistory := chatHistory st; turnCount := turnCount st;
      requests := requests st ++ [req]; terminal := terminal st |}).

(** ** The script *)

Definition nl : jsstring := [10%N].
Definition esc : jsstring := [27%N].

(** [`${v}`] for an optional string. *)
Definition template (v : option jsstring) : jsstring :=
  match v with
  | Some s => s
  | None => lit "undefined"
  end.

Definition fallbackText : jsstring :=
  lit "No valid content received from the Ollama model.".

Section Script.

Variable cfg : Config.
Variable backend : Backend.

Definition MAX_TURNS : Z := maxTurns cfg.

(** [process.stdout.write(`[${agentName} is thinking...]`)] *)
Definition simulateTyping (agentName : jsstring) : M () :=
  emit (stdout_write (lit "[" ++ agentName ++ lit " is thinking...]")).

(** The role given to an entry of the history. *)
Definition roleOf (currentAgent : jsstring) (msg : Message) : Role :=
  if str_eq (msg_name msg) currentAgent then assistant else user.

(** The [messages] array that [sendMessageToAgent] builds. *)
Definition buildMessages (history : MessageList) (currentAgent systemPrompt : jsstring)
  : list OllamaMessage :=
  let messages := [] in
  let messages :=
    if truthy systemPrompt
    then messages ++ [{| role := system; content := systemPrompt |}]
    else messages in
  let trimmedHistory :=
    trimChatHistory history (chatMaxLength cfg - (if truthy systemPrompt then 1 else 0)) in
  foldl (λ messages msg,
           messages ++ [{| role := roleOf currentAgent msg; content := msg_message msg |}])
        messages trimmedHistory.

(** [{ ...(c && o), ...rest }] read right to left: the properties of [o]
    are written over [acc] when [c] holds, and nothing is added otherwise. *)
Definition spread_if (c : bool) (o acc : gmap string JsVal) : gmap string JsVal :=
  if c then o ∪ acc else acc.

(** The [options] object of the request. *)
Definition buildOptions : gmap string JsVal :=
  spread_if (isDefined (repeatPenalty cfg)) {[ "repeat_penalty" := repeatPenalty cfg ]}
    (spread_if (isDefined (temperature cfg)) {[ "temperature" := temperature cfg ]} ∅).

(** [response?.message?.content?.trim()] *)
Definition trimmedContent (response : option ChatResponse) : option jsstring :=
  match response with
  | None => None
  | Some r =>
      match resp_message r with
      | None => None
      | Some m =>
          match resp_content m with
          | None => None
          | Some c => Some (trim c)
          end
      end
  end.

(** The [catch] block of [sendMessageToAgent]. *)
Definition onError (error : JsError) : M jsstring :=
  _ ← emit (console_error (nl ++ lit "Error fetching from Ollama API: "
                              ++ template (err_message error)));
  if bool_decide (err_code error = Some (lit "ECONNREFUSED")) then
    mret (lit "(Error: Could not connect to Ollama server at " ++ ollamaHost cfg
            ++ lit ". Is Ollama running?)")
  else if from_option
            (λ m, includes m (lit "pull " ++ ollamaModel cfg ++ lit ": file does not exist"))
            false (err_message error) then
    mret (lit "(Error: Ollama model '" ++ ollamaModel cfg
            ++ lit "' not found. Did you run 'ollama run " ++ ollamaModel cfg ++ lit "'?)")
  else
    mret (lit "(Error: Could not generate response - " ++ template (err_message error)
            ++ lit ")").

(** The object given to [client.chat]. *)
Definition chatRequest (history : MessageList) (currentAgent systemPrompt : jsstring)
  : ChatRequest :=
  let messages := buildMessages history currentAgent systemPrompt in
  {| model := ollamaModel cfg;
     keep_alive := ollamaKeepAlive cfg;
     messages := messages;
     options := buildOptions |}.

Definition sendMessageToAgent (history : MessageList) (currentAgent systemPrompt : jsstring)
  : M jsstring :=
  try_catch
    (response ← client_chat backend (chatRequest history currentAgent systemPrompt);
     mret (default fallbackText (trimmedContent response)))
    onError.

(** One call of [autoChat]; the result is the argument of the call that
    it leaves on the timer, if any. *)
Definition autoChat (currentAgentIndex : Z) : M (option Z) :=
  st ← get;
  if MAX_TURNS <=? turnCount st then
    _ ← emit (console_log (nl ++ lit "--- Chat Finished (Reached "
                             ++ lit (pretty MAX_TURNS) ++ lit " turns) ---"));
    mret None
  else
    _ ← incr_turnCount;
    let currentAgent :=
      if currentAgentIndex =? 1 then agent1Name cfg else agent2Name cfg in
    let currentAgentSystemPrompt :=
      if currentAgentIndex =? 1 then agent1System cfg else agent2System cfg in
    _ ← simulateTyping currentAgent;
    responseText ← sendMessageToAgent (chatHistory st) currentAgent currentAgentSystemPrompt;
    _ ← emit (stdout_clearLine 0);
    _ ← emit (stdout_cursorTo 0);
    _ ← chatHistory_push {| msg_name := currentAgent; msg_message := responseText |};
    _ ← emit (console_log (esc ++ lit "[1m" ++ currentAgent ++ lit ":" ++ esc ++ lit "[0m "
                             ++ responseText));
    mret (Some (if currentAgentIndex =? 1 then 2 else 1)).

(** The timer: the pending call, if any, runs; a call that throws ends
    the process. [None] is for a loop that needs more than [fuel] calls. *)
Fixpoint eventLoop (fuel : nat) (timer : option Z) (st : RunState)
  : option (Completion () * RunState) :=
  match timer with
  | None => Some (Normal (), st)
  | Some currentAgentIndex =>
      match fuel with
      | O => None
      | S fuel' =>
          match autoChat currentAgentIndex st with
          | (Normal next, st') => eventLoop fuel' next st'
          | (Throw e, st') => Some (Throw e, st')
          end
      end
  end.

(** The global chat state at its declaration. *)
Definition initialState : RunState :=
  {| chatHistory := initialMessages cfg; turnCount := 0; requests := []; terminal := [] |}.

(** Printing the initial messages. *)
Definition printInitialMessages : M () :=
  st ← get;
  foldl (λ (acc : M ()) msg,
           _ ← acc;
           emit (console_log (esc ++ lit "[1m" ++ msg_name msg ++ lit ":" ++ esc ++ lit "[0m "
                                ++ msg_message msg)))
        (mret ()) (chatHistory st).

Definition fallbackNotice (lastSenderName : jsstring) : jsstring :=
  nl ++ lit "(Last initial message was from '" ++ lastSenderName ++ lit "'. "
     ++ agent1Name cfg ++ lit " will start.)".

(** Who speaks next: the value given to [nextAgentIndex]. *)
Definition nextAgentIndex : M Z :=
  st ← get;
  match last (chatHistory st) with
  | None =>
      throw {| err_code := None;
               err_message := Some (lit "Cannot read properties of undefined (reading 'name')") |}
  | Some lastMsg =>
      let lastSenderName := msg_name lastMsg in
      if str_eq lastSenderName (agent1Name cfg) then mret 2
      else if str_eq lastSenderName (agent2Name cfg) then mret 1
      else
        _ ← emit (console_log (fallbackNotice lastSenderName));
        mret 1
  end.

(** The script from the chat state on: the first call of [autoChat] is
    direct, the others come from the timer. *)
Definition runChat (fuel : nat) : option (Completion () * RunState) :=
  match (_ ← printInitialMessages; nextAgentIndex) initialState with
  | (Normal idx, st) => eventLoop fuel (Some idx) st
  | (Throw e, st) => Some (Throw e, st)
  end.

End Script.


(** ** The two older scripts *)

(** What [src/main.mjs] and the script with a fixed cap and a role per
    viewpoint share: entries [{ sender, text }], a request without
    [options], the same [catch] block and the same timer. The globals that
    only one of them has are in [more]. *)
Module Older.

Record Entry := { sender : jsstring; text : jsstring }.

Record Request := {
  model : jsstring;
  keep_alive : JsVal;
  messages : list OllamaMessage
}.

Record State (G : Type) := {
  chatHistory : list Entry;
  turnCount : Z;
  requests : list Request;
  terminal : list TermEvent;
  more : G
}.
Arguments chatHistory {G} _.
Arguments turnCount {G} _.
Arguments requests {G} _.
Arguments terminal {G} _.
Arguments more {G} _.

Definition Backend := nat → Request → Completion (option ChatResponse).

Definition MS (G A : Type) : Type := State G → Completion A * State G.

#[global] Instance MS_ret G : MRet (MS G) := λ A a st, (Normal a, st).

#[global] Instance MS_bind G : MBind (MS G) := λ A B k m st,
  match m st with
  | (Normal a, st') => k a st'
  | (Throw e, st') => (Throw e, st')
  end.

Definition throw {G A} (e : JsError) : MS G A := λ st, (Throw e, st).

Definition try_catch {G A} (body : MS G A) (handler : JsError → MS G A) : MS G A := λ st,
  match body st with
  | (Normal a, st') => (Normal a, st')
  | (Throw e, st') => handler e st'
  end.

Definition get {G} : MS G (State G) := λ st, (Normal st, st).

Definition emit {G} (ev : TermEvent) : MS G () := λ st,
  (Normal (), {| chatHistory := chatHistory st; turnCount := turnCount st;
                 requests := requests st; terminal := terminal st ++ [ev];
                 more := more st |}).

(** [turnCount++] *)
Definition incr_turnCount {G} : MS G () := λ st,
  (Normal (), {| chatHistory := chatHistory st; turnCount := turnCount st + 1;
                 requests := requests st; terminal := terminal st; more := more st |}).

(** [chatHistory.push(entry)] *)
Definition chatHistory_push {G} (entry : Entry) : MS G () := λ st,
  (Normal (), {| chatHistory := chatHistory st ++ [entry]; turnCount := turnCount st;
                 requests := requests st; terminal := terminal st; more := more st |}).

(** An assignment to the globals of one script. *)
Definition set_more {G} (g : G) : MS G () := λ st,
  (Normal (), {| chatHistory := chatHistory st; turnCount := turnCount st;
                 requests := requests st; terminal := terminal st; more := g |}).

(** [await client.chat(req)] *)
Definition client_chat {G} (backend : Backend) (req : Request)
  : MS G (option ChatResponse) := λ st,
  (backend (length (requests st)) req,
   {| chatHistory := chatHistory st; turnCount := turnCount st;
      requests := requests st ++ [req]; terminal := terminal st; more := more st |}).

Definition MAX_TURNS : Z := 10.

(** [process.stdout.write(`\n[${agentName} is thinking...]`)] *)
Definition simulateTyping {G} (agentName : jsstring) : MS G () :=
  emit (stdout_write (nl ++ lit "[" ++ agentName ++ lit " is thinking...]")).

(** [response?.message?.content ?? "No valid content ..."] *)
Definition contentOrFallback (response : option ChatResponse) : jsstring :=
  match response with
  | None => fallbackText
  | Some r =>
      match resp_message r with
      | None => fallbackText
      | Some m =>
          match resp_content m with
          | None => fallbackText
          | Some c => c
          end
      end
  end.

(** The [catch] block of [sendMessageToAgent], the same in both scripts. *)
Definition onError {G} (cfg : Config) (error : JsError) : MS G jsstring :=
  _ ← emit (console_error (nl ++ lit "Error fetching from Ollama API: "
                              ++ template (err_message error)));
  if bool_decide (err_code error = Some (lit "ECONNREFUSED")) then
    mret (lit "(Error: Could not connect to Ollama server at " ++ ollamaHost cfg
            ++ lit ". Is Ollama running?)")
  else if from_option
            (λ m, includes m (lit "pull " ++ ollamaModel cfg ++ lit ": file does not exist"))
            false (err_message error) then
    mret (lit "(Error: Ollama model '" ++ ollamaModel cfg
            ++ lit "' not found. Did you run 'ollama run " ++ ollamaModel cfg ++ lit "'?)")
  else
    mret (lit "(Error: Could not generate response - " ++ template (err_message error)
            ++ lit ")").

(** The line printed for a message. *)
Definition boldLine (name message : jsstring) : jsstring :=
  esc ++ lit "[1m" ++ name ++ lit ":" ++ esc ++ lit "[0m " ++ message.

(** The loop over [initialMessages] that fills [chatHistory] and prints. *)
Definition pushInitialMessages {G} (initial : MessageList) : MS G () :=
  foldl (λ (acc : MS G ()) msg,
           _ ← acc;
           _ ← chatHistory_push {| sender := msg_name msg; text := msg_message msg |};
           emit (console_log (boldLine (msg_name msg) (msg_message msg))))
        (mret ()) initial.

(** Who speaks next, from the sender of the last initial message. *)
Definition nextAgentIndex {G} (cfg : Config) : MS G Z :=
  match last (initialMessages cfg) with
  | None =>
      throw {| err_code := None;
               err_message := Some (lit "Cannot read properties of undefined (reading 'name')") |}
  | Some lastMsg =>
      let lastInitialMessageSender := msg_name lastMsg in
      if str_eq lastInitialMessageSender (agent1Name cfg) then mret 2
      else if str_eq lastInitialMessageSender (agent2Name cfg) then mret 1
      else
        _ ← emit (console_log (fallbackNotice cfg lastInitialMessageSender));
        mret 1
  end.

(** The timer, for the [autoChat] of either script. *)
Fixpoint eventLoop {G} (autoChat : Z → MS G (option Z)) (fuel : nat) (timer : option Z)
    (st : State G) : option (Completion () * State G) :=
  match timer with
  | None => Some (Normal (), st)
  | Some currentAgentIndex =>
      match fuel with
      | O => None
      | S fuel' =>
          match autoChat currentAgentIndex st with
          | (Normal next, st') => eventLoop autoChat fuel' next st'
          | (Throw e, st') => Some (Throw e, st')
          end
      end
  end.

End Older.

(** The script with a fixed cap of ten turns and a role per viewpoint, which
    sends the whole history. *)
Module Part001.

Import Older.

Section Script.

Variable cfg : Config.
Variable backend : Backend.

(** The [messagesForOllama] array that [sendMessageToAgent] builds. *)
Definition buildMessages (history : list Entry) (currentAgent systemPrompt : jsstring)
  : list OllamaMessage :=
  let messagesForOllama := [] in
  let messagesForOllama :=
    if truthy systemPrompt
    then messagesForOllama ++ [{| role := system; content := systemPrompt |}]
    else messagesForOllama in
  foldl (λ messagesForOllama msg,
           messagesForOllama
             ++ [{| role := if str_eq (sender msg) currentAgent then assistant else user;
                    content := text msg |}])
        messagesForOllama history.

Definition chatRequest (history : list Entry) (currentAgent systemPrompt : jsstring)
  : Request :=
  {| model := ollamaModel cfg;
     keep_alive := ollamaKeepAlive cfg;
     messages := buildMessages history currentAgent systemPrompt |}.

Definition sendMessageToAgent (history : list Entry) (currentAgent systemPrompt : jsstring)
  : MS () jsstring :=
  try_catch
    (response ← client_chat backend (chatRequest history currentAgent systemPrompt);
     mret (contentOrFallback response))
    (onError cfg).

Definition autoChat (currentAgentIndex : Z) : MS () (option Z) :=
  st ← get;
  if MAX_TURNS <=? turnCount st then
    _ ← emit (console_log (nl ++ nl ++ lit "--- Chat Finished (Reached "
                             ++ lit (pretty MAX_TURNS) ++ lit " turns) ---"));
    mret None
  else
    _ ← incr_turnCount;
    let currentAgent :=
      if currentAgentIndex =? 1 then agent1Name cfg else agent2Name cfg in
    let currentAgentSystemPrompt :=
      if currentAgentIndex =? 1 then agent1System cfg else agent2System cfg in
    _ ← simulateTyping currentAgent;
    responseText ← sendMessageToAgent (chatHistory st) currentAgent currentAgentSystemPrompt;
    _ ← emit (stdout_clearLine 0);
    _ ← emit (stdout_cursorTo 0);
    _ ← chatHistory_push {| sender := currentAgent; text := responseText |};
    _ ← emit (console_log (nl ++ boldLine currentAgent responseText));
    mret (Some (if currentAgentIndex =? 1 then 2 else 1)).

Definition initialState : State () :=
  {| chatHistory := []; turnCount := 0; requests := []; terminal := []; more := () |}.

(** The script from the chat state on: the first call of [autoChat] is
    direct. *)
Definition runChat (fuel : nat) : option (Completion () * State ()) :=
  match (_ ← pushInitialMessages (initialMessages cfg); nextAgentIndex cfg) initialState with
  | (Normal idx, st) => eventLoop autoChat fuel (Some idx) st
  | (Throw e, st) => Some (Throw e, st)
  end.

End Script.

End Part001.

(** [src/main.mjs]: a fixed cap of ten turns, a prompt that quotes the last
    message, and the role [assistant] for both agents. Its own global is
    [isChatting]. *)
Module MainMjs.

Import Older.

Definition dquote : jsstring := [34%N].

Definition isChatting (st : State bool) : bool := more st.

Section Script.

Variable cfg : Config.
Variable backend : Backend.

(** The [messagesForOllama] array that [sendMessageToAgent] builds. *)
Definition buildMessages (prompt : jsstring) (history : list Entry) (systemPrompt : jsstring)
  : list OllamaMessage :=
  let messagesForOllama := [] in
  let messagesForOllama :=
    if truthy systemPrompt
    then messagesForOllama ++ [{| role := system; content := systemPrompt |}]
    else messagesForOllama in
  let messagesForOllama :=
    foldl (λ messagesForOllama msg,
             messagesForOllama
               ++ [{| role := if str_eq (sender msg) (agent1Name cfg)
                                 || str_eq (sender msg) (agent2Name cfg)
                              then assistant else user;
                      content := text msg |}])
          messagesForOllama history in
  messagesForOllama ++ [{| role := user; content := prompt |}].

Definition chatRequest (prompt : jsstring) (history : list Entry) (systemPrompt : jsstring)
  : Request :=
  {| model := ollamaModel cfg;
     keep_alive := ollamaKeepAlive cfg;
     messages := buildMessages prompt history systemPrompt |}.

Definition sendMessageToAgent (prompt : jsstring) (history : list Entry)
    (systemPrompt : jsstring) : MS bool jsstring :=
  try_catch
    (response ← client_chat backend (chatRequest prompt history systemPrompt);
     mret (contentOrFallback response))
    (onError cfg).

(** [`${lastSender} just said: "${lastMessage}".\n\n${currentAgent}, what is
    your response?`] *)
Definition promptFor (lastSender lastMessage currentAgent : jsstring) : jsstring :=
  lastSender ++ lit " just said: " ++ dquote ++ lastMessage ++ dquote ++ lit "." ++ nl ++ nl
    ++ currentAgent ++ lit ", what is your response?".

Definition autoChat (currentAgentIndex : Z) : MS bool (option Z) :=
  st ← get;
  if negb (isChatting st) || (MAX_TURNS <=? turnCount st) then
    _ ← emit (console_log (nl ++ nl ++ lit "--- Chat Finished (Reached "
                             ++ lit (pretty MAX_TURNS) ++ lit " turns) ---"));
    _ ← set_more false;
    mret None
  else
    _ ← incr_turnCount;
    let currentAgent :=
      if currentAgentIndex =? 1 then agent1Name cfg else agent2Name cfg in
    let currentAgentSystemPrompt :=
      if currentAgentIndex =? 1 then agent1System cfg else agent2System cfg in
    let lastMessage := from_option text [] (last (chatHistory st)) in
    let lastSender := from_option sender [] (last (chatHistory st)) in
    let promptForAgent := promptFor lastSender lastMessage currentAgent in
    _ ← simulateTyping currentAgent;
    responseText ← sendMessageToAgent promptForAgent (chatHistory st) currentAgentSystemPrompt;
    _ ← emit (stdout_clearLine 0);
    _ ← emit (stdout_cursorTo 0);
    _ ← chatHistory_push {| sender := currentAgent; text := responseText |};
    _ ← emit (console_log (nl ++ boldLine currentAgent responseText));
    mret (Some (if currentAgentIndex =? 1 then 2 else 1)).

(** [startChat]: the result is the argument of the call left on the timer. *)
Definition startChat : MS bool (option Z) :=
  _ ← set_more true;
  _ ← pushInitialMessages (initialMessages cfg);
  nextAgentIndex ← nextAgentIndex cfg;
  mret (Some nextAgentIndex).

Definition initialState : State bool :=
  {| chatHistory := []; turnCount := 0; requests := []; terminal := []; more := false |}.

(** The script from the chat state on: [startChat()], then the timer. *)
Definition runChat (fuel : nat) : option (Completion () * State bool) :=
  match startChat initialState with
  | (Normal timer, st) => eventLoop autoChat fuel timer st
  | (Throw e, st) => Some (Throw e, st)
  end.

End Script.

End MainMjs.

(** ** Vocabulary of the properties *)

(** The entry of the context made from an entry of the history. *)
Definition labelled (currentAgent : jsstring) (msg : Message) : OllamaMessage :=
  {| role := roleOf currentAgent msg; content := msg_message msg |}.

(** The system message at the head of the context, if there is one. *)
Definition systemPart (systemPrompt : jsstring) : list OllamaMessage :=
  if truthy systemPrompt then [{| role := system; content := systemPrompt |}] else [].

(** The slot that the system message takes in the window. *)
Definition systemSlot (systemPrompt : jsstring) : Z :=
  if truthy systemPrompt then 1 else 0.

(** The other agent: [currentAgentIndex === 1 ? 2 : 1]. *)
Definition otherAgent (currentAgentIndex : Z) : Z :=
  if currentAgentIndex =? 1 then 2 else 1.

(** The name and the system prompt that [autoChat] takes for an index. *)
Definition nameOf (cfg : Config) (currentAgentIndex : Z) : jsstring :=
  if currentAgentIndex =? 1 then agent1Name cfg else agent2Name cfg.

Definition systemOf (cfg : Config) (currentAgentIndex : Z) : jsstring :=
  if currentAgentIndex =? 1 then agent1System cfg else agent2System cfg.

(** The agent of the [i]-th turn of a run that [first] starts. *)
Fixpoint agentOfTurn (first : Z) (i : nat) : Z :=
  match i with
  | O => first
  | S i' => otherAgent (agentOfTurn first i')
  end.

(** A string of white space only (the empty string is one). *)
Definition allWhiteSpace (s : jsstring) : Prop :=
  Forall (λ c, isWhiteSpace c = true) s.

(** The three placeholders of a failed turn. *)
Definition connectionRefusedText (cfg : Config) : jsstring :=
  lit "(Error: Could not connect to Ollama server at " ++ ollamaHost cfg
    ++ lit ". Is Ollama running?)".

Definition modelNotFoundText (cfg : Config) : jsstring :=
  lit "(Error: Ollama model '" ++ ollamaModel cfg
    ++ lit "' not found. Did you run 'ollama run " ++ ollamaModel cfg ++ lit "'?)".

Definition genericErrorText (error : JsError) : jsstring :=
  lit "(Error: Could not generate response - " ++ template (err_message error) ++ lit ")".

(** The backend reports that the model could not be pulled. *)
Definition reportsMissingModel (cfg : Config) (error : JsError) : Prop :=
  ∃ m, err_message error = Some m
       ∧ includes m (lit "pull " ++ ollamaModel cfg ++ lit ": file does not exist") = true.

(** The text that the [catch] block returns. *)
Definition errorText (cfg : Config) (error : JsError) : jsstring :=
  if bool_decide (err_code error = Some (lit "ECONNREFUSED")) then connectionRefusedText cfg
  else if from_option
            (λ m, includes m (lit "pull " ++ ollamaModel cfg ++ lit ": file does not exist"))
            false (err_message error)
       then modelNotFoundText cfg
       else genericErrorText error.

(** The text of a turn, from what the backend answers. *)
Definition turnText (cfg : Config) (outcome : Completion (option ChatResponse)) : jsstring :=
  match outcome with
  | Normal response => default fallbackText (trimmedContent response)
  | Throw error => errorText cfg error
  end.

(** The state after a turn of [currentAgent] whose text is [text]. *)
Definition afterTurn (cfg : Config) (st : RunState) (currentAgentIndex : Z)
    (outcome : Completion (option ChatResponse)) : RunState :=
  let currentAgent := nameOf cfg currentAgentIndex in
  let text := turnText cfg outcome in
  {| chatHistory := chatHistory st ++ [{| msg_name := currentAgent; msg_message := text |}];
     turnCount := turnCount st + 1;
     requests := requests st
       ++ [chatRequest cfg (chatHistory st) currentAgent (systemOf cfg currentAgentIndex)];
     terminal := terminal st
       ++ [stdout_write (lit "[" ++ currentAgent ++ lit " is thinking...]")]
       ++ match outcome with
          | Normal _ => []
          | Throw error =>
              [console_error (nl ++ lit "Error fetching from Ollama API: "
                                 ++ template (err_message error))]
          end
       ++ [stdout_clearLine 0; stdout_cursorTo 0;
           console_log (esc ++ lit "[1m" ++ currentAgent ++ lit ":" ++ esc ++ lit "[0m "
                          ++ text)] |}.

(** The state after [k] turns in a row, the first one of [currentAgentIndex]. *)
Fixpoint afterTurns (cfg : Config) (backend : Backend) (k : nat) (currentAgentIndex : Z)
    (st : RunState) : RunState :=
  match k with
  | O => st
  | S k' =>
      afterTurns cfg backend k' (otherAgent currentAgentIndex)
        (afterTurn cfg st currentAgentIndex
           (backend (length (requests st))
              (chatRequest cfg (chatHistory st) (nameOf cfg currentAgentIndex)
                 (systemOf cfg currentAgentIndex))))
  end.

(** A state with one more terminal event. *)
Definition withEvent (st : RunState) (ev : TermEvent) : RunState :=
  {| chatHistory := chatHistory st; turnCount := turnCount st;
     requests := requests st; terminal := terminal st ++ [ev] |}.

(** [response?.message?.content] *)
Definition contentOf (response : option ChatResponse) : option jsstring :=
  match response with
  | Some r =>
      match resp_message r with
      | Some m => resp_content m
      | None => None
      end
  | None => None
  end.

(** What a request may carry for an optional setting: nothing when the
    setting is absent or null, its value otherwise. *)
Definition sentFor (setting : JsVal) : option JsVal :=
  match setting with
  | JUndefined | JNull => None
  | _ => Some setting
  end.

(** *** For the older scripts *)

(** The entry that the older scripts make of an initial message. *)
Definition entryOfMessage (msg : Message) : Older.Entry :=
  {| Older.sender := msg_name msg; Older.text := msg_message msg |}.

(** The text of a turn in the older scripts: the content as it is. *)
Definition olderTurnText (cfg : Config) (outcome : Completion (option ChatResponse))
  : jsstring :=
  match outcome with
  | Normal response => Older.contentOrFallback response
  | Throw error => errorText cfg error
  end.

(** What a turn of the older scripts writes to the terminal. *)
Definition olderTurnEvents (currentAgent text : jsstring)
    (outcome : Completion (option ChatResponse)) : list TermEvent :=
  [stdout_write (nl ++ lit "[" ++ currentAgent ++ lit " is thinking...]")]
    ++ match outcome with
       | Normal _ => []
       | Throw error =>
           [console_error (nl ++ lit "Error fetching from Ollama API: "
                              ++ template (err_message error))]
       end
    ++ [stdout_clearLine 0; stdout_cursorTo 0;
        console_log (nl ++ Older.boldLine currentAgent text)].

(** The state after a turn made with [request]. *)
Definition olderAfterTurn {G} (cfg : Config) (backend : Older.Backend)
    (requestOf : list Older.Entry → Z → Older.Request)
    (st : Older.State G) (currentAgentIndex : Z) : Older.State G :=
  let currentAgent := nameOf cfg currentAgentIndex in
  let request := requestOf (Older.chatHistory st) currentAgentIndex in
  let outcome := backend (length (Older.requests st)) request in
  let text := olderTurnText cfg outcome in
  {| Older.chatHistory :=
       Older.chatHistory st ++ [{| Older.sender := currentAgent; Older.text := text |}];
     Older.turnCount := Older.turnCount st + 1;
     Older.requests := Older.requests st ++ [request];
     Older.terminal := Older.terminal st ++ olderTurnEvents currentAgent text outcome;
     Older.more := Older.more st |}.

(** The state after [k] turns in a row. *)
Fixpoint olderAfterTurns {G} (cfg : Config) (backend : Older.Backend)
    (requestOf : list Older.Entry → Z → Older.Request)
    (k : nat) (currentAgentIndex : Z) (st : Older.State G) : Older.State G :=
  match k with
  | O => st
  | S k' =>
      olderAfterTurns cfg backend requestOf k' (otherAgent currentAgentIndex)
        (olderAfterTurn cfg backend requestOf st currentAgentIndex)
  end.

(** The request of a turn, from the history and the index of the agent. *)
Definition part001Request (cfg : Config) (history : list Older.Entry) (idx : Z)
  : Older.Request :=
  Part001.chatRequest cfg history (nameOf cfg idx) (systemOf cfg idx).

Definition mainMjsPrompt (cfg : Config) (history : list Older.Entry) (idx : Z) : jsstring :=
  MainMjs.promptFor (from_option Older.sender [] (last history))
    (from_option Older.text [] (last history)) (nameOf cfg idx).

Definition mainMjsRequest (cfg : Config) (history : list Older.Entry) (idx : Z)
  : Older.Request :=
  MainMjs.chatRequest cfg (mainMjsPrompt cfg history idx) history (systemOf cfg idx).

(** The role that [src/main.mjs] gives to an entry. *)
Definition mainMjsLabelled (cfg : Config) (msg : Older.Entry) : OllamaMessage :=
  {| role := if str_eq (Older.sender msg) (agent1Name cfg)
                || str_eq (Older.sender msg) (agent2Name cfg)
             then assistant else user;
     content := Older.text msg |}.

(** The role per viewpoint of the other older script. *)
Definition part001Labelled (currentAgent : jsstring) (msg : Older.Entry) : OllamaMessage :=
  {| role := if str_eq (Older.sender msg) currentAgent then assistant else user;
     content := Older.text msg |}.

(** The closing line of the older scripts, and the state after the call
    that prints it and leaves [g] in the script's own globals. *)
Definition olderFinishedLine : jsstring :=
  nl ++ nl ++ lit "--- Chat Finished (Reached " ++ lit (pretty Older.MAX_TURNS)
     ++ lit " turns) ---".

Definition olderStopped {G} (g : G) (st : Older.State G) : Older.State G :=
  {| Older.chatHistory := Older.chatHistory st; Older.turnCount := Older.turnCount st;
     Older.requests := Older.requests st;
     Older.terminal := Older.terminal st ++ [console_log olderFinishedLine];
     Older.more := g |}.

(** ** A sample run *)

Module Examples.

Definition ann : jsstring := lit "Ann".
Definition bob : jsstring := lit "Bob".

(** Ann and Bob, one initial message from Ann, two turns, a window of
    three messages; a system prompt for Ann only; a repeat penalty and no
    temperature. *)
Definition annBobSettings : settings.t := {|
  settings.agent1Name := Some ann;
  settings.agent2Name := Some bob;
  settings.agent1System := Some (lit "You are Ann.");
  settings.agent2System := None;
  settings.initialMessages := Some [{| msg_name := ann; msg_message := lit "hi" |}];
  settings.ollamaHost := None;
  settings.ollamaModel := None;
  settings.ollamaKeepAlive := JUndefined;
  settings.maxTurns := Some 2;
  settings.chatMaxLength := Some 3;
  settings.temperature := JNull;
  settings.repeatPenalty := JNumber (11 # 10)
|}.

Definition annBob : Config := {|
  agent1Name := ann;
  agent2Name := bob;
  agent1System := lit "You are Ann.";
  agent2System := [];
  initialMessages := [{| msg_name := ann; msg_message := lit "hi" |}];
  ollamaHost := lit "http://localhost:11434";
  ollamaModel := lit "llama2";
  ollamaKeepAlive := JUndefined;
  maxTurns := 2;
  chatMaxLength := 3;
  temperature := JUndefined;
  repeatPenalty := JNumber (11 # 10)
|}.

(** The same two agents with a window of one message. *)
Definition annBobNarrow : Config := {|
  agent1Name := ann;
  agent2Name := bob;
  agent1System := lit "You are Ann.";
  agent2System := [];
  initialMessages := [{| msg_name := ann; msg_message := lit "hi" |}];
  ollamaHost := lit "http://localhost:11434";
  ollamaModel := lit "llama2";
  ollamaKeepAlive := JUndefined;
  maxTurns := 2;
  chatMaxLength := 1;
  temperature := JUndefined;
  repeatPenalty := JNumber (11 # 10)
|}.

Definition answer (text : jsstring) : Completion (option ChatResponse) :=
  Normal (Some {| resp_message := Some {| resp_content := Some text |} |}).

Definition refused : JsError :=
  {| err_code := Some (lit "ECONNREFUSED"); err_message := Some (lit "connect ECONNREFUSED") |}.

(** A backend that answers every request the same way. *)
Definition greeting : Backend := λ _ _, answer (lit " hello ").

(** A backend that is down. *)
Definition down : Backend := λ _ _, Throw refused.

(** A backend that answers with blanks only. *)
Definition blank : Backend := λ _ _, answer (lit "   ").

(** The state of the chat at its start. *)
Definition seeded : RunState := initialState annBob.

(** A history of ten messages, from Ann and Bob in turn. *)
Definition tenMessages : MessageList :=
  (λ i : nat, {| msg_name := if Nat.even i then ann else bob;
                 msg_message := lit (pretty (Z.of_nat i)) |}) <$> seq 0 10.

(** The speakers and the texts of the history at the end of a run. *)
Definition speakers (r : option (Completion () * RunState)) : option (list jsstring) :=
  match r with
  | Some (Normal _, st) => Some (map msg_name (chatHistory st))
  | _ => None
  end.

Definition texts (r : option (Completion () * RunState)) : option (list jsstring) :=
  match r with
  | Some (Normal _, st) => Some (map msg_message (chatHistory st))
  | _ => None
  end.

(** Where the timer loop of the sample ends, with Bob first. *)
Definition greetingEnd : RunState :=
  match eventLoop annBob greeting 3 (Some 2) seeded with
  | Some (_, st) => st
  | None => seeded
  end.

(** The same backends for the older scripts. *)
Definition olderGreeting : Older.Backend := λ _ _, answer (lit " hello ").
Definition olderDown : Older.Backend := λ _ _, Throw refused.

End Examples.

(** * Properties *)

(** ** Strings *)

Lemma trimStart_split (s : jsstring) :
  ∃ pre, s = pre ++ trimStart s ∧ Forall (λ c, isWhiteSpace c = true) pre.
Proof.
  induction s as [|c s [pre [Hs Hpre]]]; simpl.
  - by exists [].
  - destruct (isWhiteSpace c) eqn:Hc.
    + exists (c :: pre). split; [by rewrite /= -Hs | by constructor].
    + by exists [].
Qed.

Lemma trimStart_head (s : jsstring) (c : code_unit) :
  head (trimStart s) = Some c → isWhiteSpace c = false.
Proof.
  induction s as [|d s IH]; simpl; [done|].
  destruct (isWhiteSpace d) eqn:Hd; [done|].
  simpl. by intros [= <-].
Qed.

Lemma trimStart_all_white (s : jsstring) :
  Forall (λ c, isWhiteSpace c = true) s → trimStart s = [].
Proof.
  induction 1 as [|c s Hc _ IH]; simpl; [done|]. by rewrite Hc.
Qed.

Lemma trimEnd_split (s : jsstring) :
  ∃ post, s = trimEnd s ++ post ∧ Forall (λ c, isWhiteSpace c = true) post.
Proof.
  destruct (trimStart_split (reverse s)) as [pre [Hs Hpre]].
  exists (reverse pre). split.
  - rewrite /trimEnd -reverse_app -Hs. by rewrite reverse_involutive.
  - by apply Forall_reverse.
Qed.

Lemma trimEnd_last (s : jsstring) (c : code_unit) :
  last (trimEnd s) = Some c → isWhiteSpace c = false.
Proof.
  rewrite /trimEnd last_reverse. apply trimStart_head.
Qed.

Lemma trimEnd_head (s : jsstring) (c : code_unit) :
  head s = Some c → isWhiteSpace c = false → head (trimEnd s) = Some c.
Proof.
  intros Hh Hc. destruct s as [|d s]; simplify_eq/=.
  rewrite /trimEnd reverse_cons.
  assert (∀ u : jsstring, head (reverse (trimStart (u ++ [c]))) = Some c) as H.
  { induction u as [|x u IH]; simpl.
    - by rewrite Hc.
    - destruct (isWhiteSpace x); [done|].
      by rewrite reverse_cons reverse_app /=. }
  apply H.
Qed.

(** What [trim] does: it cuts a run of white space at each end, and what is
    left neither starts nor ends with white space. *)
Lemma trim_spec (s : jsstring) :
  ∃ pre post,
    s = pre ++ trim s ++ post
    ∧ Forall (λ c, isWhiteSpace c = true) pre
    ∧ Forall (λ c, isWhiteSpace c = true) post
    ∧ (∀ c, head (trim s) = Some c → isWhiteSpace c = false)
    ∧ (∀ c, last (trim s) = Some c → isWhiteSpace c = false).
Proof.
  destruct (trimStart_split s) as [pre [Hs Hpre]].
  destruct (trimEnd_split (trimStart s)) as [post [Ht Hpost]].
  exists pre, post. repeat split; try done.
  - by rewrite /trim -Ht.
  - intros c Hc. rewrite /trim in Hc.
    destruct (trimStart s) as [|d t] eqn:Ets; [done|].
    destruct (isWhiteSpace d) eqn:Hd.
    + pose proof (trimStart_head s d) as H. rewrite Ets in H. by rewrite H in Hd.
    + pose proof (trimEnd_head (d :: t) d eq_refl Hd) as H.
      rewrite H in Hc. by simplify_eq.
  - intros c. apply trimEnd_last.
Qed.

Lemma trim_all_white (s : jsstring) :
  Forall (λ c, isWhiteSpace c = true) s → trim s = [].
Proof.
  intros H. by rewrite /trim (trimStart_all_white s H).
Qed.

(** ** The context window *)

Lemma trimChatHistory_short (history : MessageList) (maxLength : Z) :
  Z.of_nat (length history) ≤ maxLength → trimChatHistory history maxLength = history.
Proof.
  intros H. rewrite /trimChatHistory. by destruct (Z.leb_spec (Z.of_nat (length history)) maxLength); [|lia].
Qed.

(** The trimmed history is the last [maxLength] entries (none when
    [maxLength] is negative). *)
Lemma trimChatHistory_drop (history : MessageList) (maxLength : Z) :
  trimChatHistory history maxLength
  = drop (length history - Z.to_nat maxLength) history.
Proof.
  rewrite /trimChatHistory /slice.
  destruct (Z.leb_spec (Z.of_nat (length history)) maxLength) as [Hle|Hlt].
  - replace (length history - Z.to_nat maxLength)%nat with 0%nat by lia. done.
  - destruct (Z.ltb_spec (Z.of_nat (length history) - maxLength) 0) as [?|_]; [lia|].
    f_equal. lia.
Qed.

Lemma trimChatHistory_length (history : MessageList) (maxLength : Z) :
  length (trimChatHistory history maxLength)
  = (length history `min` Z.to_nat maxLength)%nat.
Proof. rewrite trimChatHistory_drop length_drop. lia. Qed.

Lemma trimChatHistory_nonpos (history : MessageList) (maxLength : Z) :
  maxLength ≤ 0 → trimChatHistory history maxLength = [].
Proof.
  intros H. apply nil_length_inv. rewrite trimChatHistory_length. lia.
Qed.

Lemma foldl_push {A B} (f : A → B) (l : list A) (acc : list B) :
  foldl (λ acc x, acc ++ [f x]) acc l = acc ++ (f <$> l).
Proof.
  revert acc. induction l as [|x l IH]; intros acc; simpl.
  - by rewrite app_nil_r.
  - by rewrite IH -app_assoc.
Qed.

Section Context.

Variable cfg : Config.

Lemma buildMessages_eq (history : MessageList) (currentAgent systemPrompt : jsstring) :
  buildMessages cfg history currentAgent systemPrompt
  = systemPart systemPrompt
    ++ (labelled currentAgent
          <$> trimChatHistory history (chatMaxLength cfg - systemSlot systemPrompt)).
Proof.
  rewrite /buildMessages /systemPart /systemSlot foldl_push.
  by destruct (truthy systemPrompt).
Qed.

Lemma systemPart_length (systemPrompt : jsstring) :
  Z.of_nat (length (systemPart systemPrompt)) = systemSlot systemPrompt.
Proof. rewrite /systemPart /systemSlot. by destruct (truthy systemPrompt). Qed.

Lemma buildMessages_length (history : MessageList) (currentAgent systemPrompt : jsstring) :
  Z.of_nat (length (buildMessages cfg history currentAgent systemPrompt))
  = systemSlot systemPrompt
    + Z.of_nat (length history) `min` (0 `max` (chatMaxLength cfg - systemSlot systemPrompt)).
Proof.
  rewrite buildMessages_eq length_app length_fmap trimChatHistory_length.
  rewrite Nat2Z.inj_add systemPart_length. lia.
Qed.

End Context.

(** ** The gateway and one call of [autoChat] *)

Section Turn.

Variable cfg : Config.
Variable backend : Backend.

Lemma onError_eq (error : JsError) (st : RunState) :
  onError cfg error st
  = (Normal (errorText cfg error),
     {| chatHistory := chatHistory st; turnCount := turnCount st;
        requests := requests st;
        terminal := terminal st
          ++ [console_error (nl ++ lit "Error fetching from Ollama API: "
                                ++ template (err_message error))] |}).
Proof.
  rewrite /onError /errorText /mbind /M_bind /emit /mret /M_ret /=.
  rewrite /connectionRefusedText /modelNotFoundText /genericErrorText.
  case_bool_decide; [done|].
  by destruct (from_option _ false (err_message error)).
Qed.

Lemma sendMessageToAgent_eq (history : MessageList) (currentAgent systemPrompt : jsstring)
    (st : RunState) :
  let outcome := backend (length (requests st)) (chatRequest cfg history currentAgent systemPrompt) in
  sendMessageToAgent cfg backend history currentAgent systemPrompt st
  = (Normal (turnText cfg outcome),
     {| chatHistory := chatHistory st; turnCount := turnCount st;
        requests := requests st ++ [chatRequest cfg history currentAgent systemPrompt];
        terminal := terminal st
          ++ match outcome with
             | Normal _ => []
             | Throw error =>
                 [console_error (nl ++ lit "Error fetching from Ollama API: "
                                    ++ template (err_message error))]
             end |}).
Proof.
  rewrite /sendMessageToAgent /try_catch /mbind /M_bind /client_chat /=.
  destruct (backend _ _) as [response|error]; simpl.
  - by rewrite /mret /M_ret app_nil_r.
  - by rewrite onError_eq.
Qed.

(** A call of [autoChat] below the cap is a whole turn, whatever the
    backend does, and it leaves the other agent on the timer. *)
Lemma autoChat_turn (currentAgentIndex : Z) (st : RunState) :
  turnCount st < maxTurns cfg →
  autoChat cfg backend currentAgentIndex st
  = (Normal (Some (otherAgent currentAgentIndex)),
     afterTurn cfg st currentAgentIndex
       (backend (length (requests st))
          (chatRequest cfg (chatHistory st) (nameOf cfg currentAgentIndex)
             (systemOf cfg currentAgentIndex)))).
Proof.
  intros Hlt.
  rewrite /autoChat /MAX_TURNS {1}/mbind {1}/M_bind /get.
  destruct (Z.leb_spec (maxTurns cfg) (turnCount st)) as [?|_]; [lia|].
  rewrite /mbind /M_bind /incr_turnCount /simulateTyping /emit /chatHistory_push /=.
  rewrite sendMessageToAgent_eq /= /afterTurn /nameOf /systemOf /otherAgent /mret /M_ret.
  by rewrite -!app_assoc.
Qed.

(** At the cap a call of [autoChat] only prints the closing line. *)
Lemma autoChat_finished (currentAgentIndex : Z) (st : RunState) :
  maxTurns cfg ≤ turnCount st →
  ∃ line,
    autoChat cfg backend currentAgentIndex st
    = (Normal None,
       {| chatHistory := chatHistory st; turnCount := turnCount st;
          requests := requests st; terminal := terminal st ++ [console_log line] |}).
Proof.
  intros Hge. eexists.
  rewrite /autoChat /MAX_TURNS {1}/mbind {1}/M_bind /get.
  destruct (Z.leb_spec (maxTurns cfg) (turnCount st)) as [_|?]; [|lia].
  by rewrite /mbind /M_bind /emit /mret /M_ret /=.
Qed.

End Turn.

(** ** The timer loop *)

Section Loop.

Variable cfg : Config.
Variable backend : Backend.

Lemma otherAgent_cases (i : Z) : otherAgent i = 1 ∨ otherAgent i = 2.
Proof. rewrite /otherAgent. destruct (i =? 1); auto. Qed.

Lemma afterTurns_turnCount (k : nat) (idx : Z) (st : RunState) :
  turnCount (afterTurns cfg backend k idx st) = turnCount st + Z.of_nat k.
Proof.
  revert idx st. induction k as [|k IH]; intros idx st; simpl; [lia|].
  rewrite IH /=. lia.
Qed.

Lemma afterTurns_history_length (k : nat) (idx : Z) (st : RunState) :
  length (chatHistory (afterTurns cfg backend k idx st))
  = (length (chatHistory st) + k)%nat.
Proof.
  revert idx st. induction k as [|k IH]; intros idx st; simpl; [lia|].
  rewrite IH /= length_app /=. lia.
Qed.

Lemma afterTurns_requests_length (k : nat) (idx : Z) (st : RunState) :
  length (requests (afterTurns cfg backend k idx st))
  = (length (requests st) + k)%nat.
Proof.
  revert idx st. induction k as [|k IH]; intros idx st; simpl; [lia|].
  rewrite IH /= length_app /=. lia.
Qed.

(** The history only grows at its end. *)
Lemma afterTurns_history_prefix (k : nat) (idx : Z) (st : RunState) :
  chatHistory st `prefix_of` chatHistory (afterTurns cfg backend k idx st).
Proof.
  revert idx st. induction k as [|k IH]; intros idx st; simpl; [done|].
  etrans; [|apply IH]. simpl. by apply prefix_app_r.
Qed.

Lemma afterTurns_requests_prefix (k : nat) (idx : Z) (st : RunState) :
  requests st `prefix_of` requests (afterTurns cfg backend k idx st).
Proof.
  revert idx st. induction k as [|k IH]; intros idx st; simpl; [done|].
  etrans; [|apply IH]. simpl. by apply prefix_app_r.
Qed.

Lemma afterTurns_terminal_prefix (k : nat) (idx : Z) (st : RunState) :
  terminal st `prefix_of` terminal (afterTurns cfg backend k idx st).
Proof.
  revert idx st. induction k as [|k IH]; intros idx st; simpl; [done|].
  etrans; [|apply IH]. simpl. by apply prefix_app_r.
Qed.

(** The [i]-th of [k] turns: its entry, its request and its agent. *)
Lemma afterTurns_turn (k : nat) (idx : Z) (st : RunState) (i : nat) :
  (i < k)%nat →
  let final := afterTurns cfg backend k idx st in
  let agent := agentOfTurn idx i in
  let request :=
    chatRequest cfg (take (length (chatHistory st) + i) (chatHistory final))
      (nameOf cfg agent) (systemOf cfg agent) in
  requests final !! (length (requests st) + i)%nat = Some request
  ∧ chatHistory final !! (length (chatHistory st) + i)%nat
    = Some {| msg_name := nameOf cfg agent;
              msg_message := turnText cfg (backend (length (requests st) + i)%nat request) |}.
Proof.
  revert idx st i. induction k as [|k IH]; intros idx st i Hi; [lia|].
  destruct i as [|i].
  - cbn zeta. rewrite !Nat.add_0_r. simpl agentOfTurn. simpl afterTurns.
    set (st1 := afterTurn _ _ _ _).
    pose proof (afterTurns_history_prefix k (otherAgent idx) st1) as [t1 Ht1].
    pose proof (afterTurns_requests_prefix k (otherAgent idx) st1) as [t2 Ht2].
    rewrite Ht1 Ht2 /st1 /= -!app_assoc.
    rewrite take_app_length /=.
    by rewrite !list_lookup_middle.
  - cbn zeta. simpl afterTurns.
    set (st1 := afterTurn _ _ _ _).
    destruct (IH (otherAgent idx) st1 i ltac:(lia)) as [Hreq Hent].
    assert (length (chatHistory st1) = S (length (chatHistory st))) as Hl1
      by (rewrite /st1 /= length_app /=; lia).
    assert (length (requests st1) = S (length (requests st))) as Hl2
      by (rewrite /st1 /= length_app /=; lia).
    rewrite Hl1 Hl2 in Hreq Hent.
    replace (length (chatHistory st) + S i)%nat with (S (length (chatHistory st)) + i)%nat by lia.
    replace (length (requests st) + S i)%nat with (S (length (requests st)) + i)%nat by lia.
    replace (agentOfTurn idx (S i)) with (agentOfTurn (otherAgent idx) i); [done|].
    clear. induction i as [|i IHi]; simpl; [done|]. by rewrite IHi.
Qed.

(** More fuel does not change the result of the loop. *)
Lemma eventLoop_fuel (fuel fuel' : nat) (timer : option Z) (st : RunState) r :
  eventLoop cfg backend fuel timer st = Some r →
  (fuel ≤ fuel')%nat →
  eventLoop cfg backend fuel' timer st = Some r.
Proof.
  revert fuel' timer st. induction fuel as [|fuel IH]; intros fuel' timer st H Hle.
  - destruct timer; [done|]. by destruct fuel'.
  - destruct timer as [idx|]; [|by destruct fuel'].
    destruct fuel' as [|fuel']; [lia|]. simpl in *.
    destruct (autoChat cfg backend idx st) as [[next|e] st']; [|done].
    apply IH; [done|lia].
Qed.

(** The loop runs the turns that are left below the cap, then one more
    call that prints the closing line and leaves the timer empty. *)
Lemma eventLoop_run (fuel : nat) (idx : Z) (st : RunState) :
  (Z.to_nat (maxTurns cfg - turnCount st) < fuel)%nat →
  ∃ line,
    eventLoop cfg backend fuel (Some idx) st
    = Some (Normal (),
            withEvent (afterTurns cfg backend (Z.to_nat (maxTurns cfg - turnCount st)) idx st)
              (console_log line)).
Proof.
  remember (Z.to_nat (maxTurns cfg - turnCount st)) as k eqn:Hk.
  revert fuel idx st Hk. induction k as [|k IH]; intros fuel idx st Hk Hfuel.
  - destruct fuel as [|fuel]; [lia|]. simpl.
    destruct (autoChat_finished cfg backend idx st ltac:(lia)) as [line ->].
    exists line. by destruct fuel.
  - destruct fuel as [|fuel]; [lia|]. simpl.
    rewrite autoChat_turn; [lia|].
    apply IH; [|lia]. simpl. lia.
Qed.

End Loop.

(** ** The start of the chat *)

Section Start.

Variable cfg : Config.
Variable backend : Backend.

Lemma printInitialMessages_eq (st : RunState) :
  ∃ lines,
    printInitialMessages st
    = (Normal (),
       {| chatHistory := chatHistory st; turnCount := turnCount st;
          requests := requests st; terminal := terminal st ++ lines |}).
Proof.
  rewrite /printInitialMessages {1}/mbind {1}/M_bind /get.
  generalize (chatHistory st) at 1 as l. intros l.
  assert (∃ lines, (mret () : M ()) st
            = (Normal (), {| chatHistory := chatHistory st; turnCount := turnCount st;
                             requests := requests st; terminal := terminal st ++ lines |})) as H.
  { exists []. rewrite app_nil_r. by destruct st. }
  revert H. generalize (mret () : M ()) as acc.
  induction l as [|msg l IH]; intros acc [lines Hacc]; simpl.
  - by exists lines.
  - apply IH. eexists (lines ++ [_]).
    by rewrite {1}/mbind {1}/M_bind Hacc /emit /= -app_assoc.
Qed.

(** Who starts, from the sender of the last message of the history. *)
Lemma nextAgentIndex_eq (st : RunState) (lastMsg : Message) :
  last (chatHistory st) = Some lastMsg →
  nextAgentIndex cfg st
  = if str_eq (msg_name lastMsg) (agent1Name cfg) then (Normal 2, st)
    else if str_eq (msg_name lastMsg) (agent2Name cfg) then (Normal 1, st)
    else (Normal 1, withEvent st (console_log (fallbackNotice cfg (msg_name lastMsg)))).
Proof.
  intros Hlast. rewrite /nextAgentIndex /mbind /M_bind /get Hlast.
  destruct (str_eq _ (agent1Name cfg)); [done|].
  by destruct (str_eq _ (agent2Name cfg)).
Qed.

(** The name of agent 1 is tested first: a last sender with that name
    gives the turn to agent 2, also when agent 2 has the same name. *)
Lemma nextAgentIndex_after_agent1 (st : RunState) (lastMsg : Message) :
  last (chatHistory st) = Some lastMsg →
  msg_name lastMsg = agent1Name cfg →
  nextAgentIndex cfg st = (Normal 2, st).
Proof.
  intros Hlast Hname. rewrite (nextAgentIndex_eq st lastMsg) // /str_eq.
  by rewrite bool_decide_eq_true_2.
Qed.

(** With a seeded history the start does not throw, and it gives the
    first turn to agent 1 or to agent 2. *)
Lemma start_eq :
  initialMessages cfg ≠ [] →
  ∃ first st0,
    (_ ← printInitialMessages; nextAgentIndex cfg) (initialState cfg) = (Normal first, st0)
    ∧ (first = 1 ∨ first = 2)
    ∧ chatHistory st0 = initialMessages cfg
    ∧ turnCount st0 = 0
    ∧ requests st0 = [].
Proof.
  intros Hne.
  destruct (printInitialMessages_eq (initialState cfg)) as [lines Hp].
  rewrite {1}/mbind {1}/M_bind Hp.
  destruct (last (initialMessages cfg)) as [lastMsg|] eqn:Hlast;
    [|by apply last_None in Hlast].
  rewrite (nextAgentIndex_eq _ lastMsg) //.
  destruct (str_eq _ (agent1Name cfg)); [by eexists _, _; eauto 10|].
  destruct (str_eq _ (agent2Name cfg)); by eexists _, _; eauto 10.
Qed.

End Start.

(** ** The run *)

Section Run.

Variable cfg : Config.
Variable backend : Backend.

Lemma runChat_fuel (fuel fuel' : nat) r :
  runChat cfg backend fuel = Some r →
  (fuel ≤ fuel')%nat →
  runChat cfg backend fuel' = Some r.
Proof.
  rewrite /runChat.
  destruct ((_ ← printInitialMessages; nextAgentIndex cfg) (initialState cfg))
    as [[idx|e] st]; [|done].
  apply eventLoop_fuel.
Qed.

(** A run over a seeded history ends, after the turns that the cap
    allows from a first agent that is 1 or 2. *)
Lemma runChat_eq :
  initialMessages cfg ≠ [] →
  ∃ first st0 line,
    (first = 1 ∨ first = 2)
    ∧ chatHistory st0 = initialMessages cfg
    ∧ turnCount st0 = 0
    ∧ requests st0 = []
    ∧ ∀ fuel, (Z.to_nat (maxTurns cfg) < fuel)%nat →
        runChat cfg backend fuel
        = Some (Normal (),
                withEvent (afterTurns cfg backend (Z.to_nat (maxTurns cfg)) first st0)
                  (console_log line)).
Proof.
  intros Hne.
  destruct (start_eq cfg Hne) as (first & st0 & Hstart & Hfirst & Hh & Ht & Hr).
  destruct (eventLoop_run cfg backend (S (Z.to_nat (maxTurns cfg))) first st0) as [line Hrun].
  { rewrite Ht. lia. }
  exists first, st0, line. repeat split; try done.
  intros fuel Hfuel. rewrite /runChat Hstart.
  eapply eventLoop_fuel; [|exact Hfuel].
  move: Hrun. by rewrite Ht Z.sub_0_r.
Qed.

End Run.

Lemma agentOfTurn_cases (first : Z) (i : nat) :
  first = 1 ∨ first = 2 → agentOfTurn first i = 1 ∨ agentOfTurn first i = 2.
Proof. destruct i; simpl; [done|]. intros _. apply otherAgent_cases. Qed.

Lemma otherAgent_flips (a : Z) :
  a = 1 ∨ a = 2 → otherAgent a ≠ a ∧ otherAgent (otherAgent a) = a.
Proof. by intros [-> | ->]. Qed.

(** C1. For every valid configuration (a positive [maxTurns], a non-empty
    list of initial messages) the run ends, and it has appended exactly
    [maxTurns] entries after the initial messages: the final history starts
    with the initial messages and its length is their number plus
    [maxTurns]. Whatever the backend answers, and with any fuel for which
    the loop ends, the result is the same. *)
Theorem run_appends_maxTurns (cfg : Config) (backend : Backend) :
  0 < maxTurns cfg →
  initialMessages cfg ≠ [] →
  ∃ final,
    (∀ fuel, (Z.to_nat (maxTurns cfg) < fuel)%nat →
       runChat cfg backend fuel = Some (Normal (), final))
    ∧ (∀ fuel r, runChat cfg backend fuel = Some r → r = (Normal (), final))
    ∧ initialMessages cfg `prefix_of` chatHistory final
    ∧ Z.of_nat (length (chatHistory final))
      = Z.of_nat (length (initialMessages cfg)) + maxTurns cfg.
Proof.
  intros Hpos Hne.
  destruct (runChat_eq cfg backend Hne) as (first & st0 & line & _ & Hh & _ & _ & Hrun).
  eexists. split; [exact Hrun|]. split; [|split].
  - intros fuel r Hr.
    pose proof (runChat_fuel cfg backend fuel (fuel `max` S (Z.to_nat (maxTurns cfg))) r Hr
                  ltac:(lia)) as H1.
    rewrite Hrun in H1; [lia|]. by simplify_eq.
  - simpl. rewrite -Hh. apply afterTurns_history_prefix.
  - rewrite /= afterTurns_history_length Hh. lia.
Qed.

Lemma run_appends_maxTurns_witness :
  0 < maxTurns Examples.annBob
  ∧ initialMessages Examples.annBob ≠ []
  ∧ ∃ final,
      (∀ fuel, (Z.to_nat (maxTurns Examples.annBob) < fuel)%nat →
         runChat Examples.annBob Examples.greeting fuel = Some (Normal (), final))
      ∧ (∀ fuel r, runChat Examples.annBob Examples.greeting fuel = Some r → r = (Normal (), final))
      ∧ initialMessages Examples.annBob `prefix_of` chatHistory final
      ∧ Z.of_nat (length (chatHistory final))
        = Z.of_nat (length (initialMessages Examples.annBob)) + maxTurns Examples.annBob.
Proof.
  split; [reflexivity|]. split; [discriminate|].
  apply (run_appends_maxTurns Examples.annBob Examples.greeting); [reflexivity|discriminate].
Defined.

(** C2. The turns of a run alternate between the two agents: there is a
    first agent (1 or 2) such that the [i]-th appended entry carries the name
    of [agentOfTurn first i], the agent of turn [i + 1] is the other one,
    and the entry after it carries that other agent's name. Each turn makes
    exactly one request to the backend: there are as many requests as turns,
    and the [i]-th one is the request of the agent of turn [i] over the
    history as it was before that turn. The backend is arbitrary, so this
    holds whatever a turn produces, error placeholders included. *)
Theorem turns_alternate (cfg : Config) (backend : Backend) :
  initialMessages cfg ≠ [] →
  ∃ first final,
    (first = 1 ∨ first = 2)
    ∧ (∀ fuel, (Z.to_nat (maxTurns cfg) < fuel)%nat →
         runChat cfg backend fuel = Some (Normal (), final))
    ∧ length (requests final) = Z.to_nat (maxTurns cfg)
    ∧ length (chatHistory final)
      = (length (initialMessages cfg) + Z.to_nat (maxTurns cfg))%nat
    ∧ ∀ i, (i < Z.to_nat (maxTurns cfg))%nat →
        let agent := agentOfTurn first i in
        let n := (length (initialMessages cfg) + i)%nat in
        let request :=
          chatRequest cfg (take n (chatHistory final)) (nameOf cfg agent) (systemOf cfg agent) in
        (agent = 1 ∨ agent = 2)
        ∧ requests final !! i = Some request
        ∧ chatHistory final !! n
          = Some {| msg_name := nameOf cfg agent;
                    msg_message := turnText cfg (backend i request) |}
        ∧ agentOfTurn first (S i) = otherAgent agent
        ∧ otherAgent agent ≠ agent
        ∧ ((S i < Z.to_nat (maxTurns cfg))%nat →
             ∃ text, chatHistory final !! S n
                     = Some {| msg_name := nameOf cfg (otherAgent agent);
                               msg_message := text |}).
Proof.
  intros Hne.
  destruct (runChat_eq cfg backend Hne) as (first & st0 & line & Hfirst & Hh & Ht & Hr & Hrun).
  exists first. eexists. split; [done|]. split; [exact Hrun|].
  rewrite /= afterTurns_requests_length afterTurns_history_length Hh Hr /=.
  split; [done|]. split; [done|].
  intros i Hi.
  pose proof (afterTurns_turn cfg backend (Z.to_nat (maxTurns cfg)) first st0 i Hi) as Hturn.
  rewrite Hh Hr /= in Hturn. destruct Hturn as [Hreq Hent].
  pose proof (agentOfTurn_cases first i Hfirst) as Hagent.
  repeat split; try done.
  - by apply otherAgent_flips.
  - intros Hi'.
    pose proof (afterTurns_turn cfg backend (Z.to_nat (maxTurns cfg)) first st0 (S i) Hi') as Hnext.
    rewrite Hh Hr /= in Hnext. destruct Hnext as [_ Hnext].
    rewrite Nat.add_succ_r in Hnext. eauto.
Qed.

Lemma turns_alternate_witness :
  initialMessages Examples.annBob ≠ []
  ∧ ∃ first final,
      (first = 1 ∨ first = 2)
      ∧ (∀ fuel, (Z.to_nat (maxTurns Examples.annBob) < fuel)%nat →
           runChat Examples.annBob Examples.down fuel = Some (Normal (), final))
      ∧ length (requests final) = Z.to_nat (maxTurns Examples.annBob)
      ∧ length (chatHistory final)
        = (length (initialMessages Examples.annBob) + Z.to_nat (maxTurns Examples.annBob))%nat
      ∧ ∀ i, (i < Z.to_nat (maxTurns Examples.annBob))%nat →
          let agent := agentOfTurn first i in
          let n := (length (initialMessages Examples.annBob) + i)%nat in
          let request :=
            chatRequest Examples.annBob (take n (chatHistory final))
              (nameOf Examples.annBob agent) (systemOf Examples.annBob agent) in
          (agent = 1 ∨ agent = 2)
          ∧ requests final !! i = Some request
          ∧ chatHistory final !! n
            = Some {| msg_name := nameOf Examples.annBob agent;
                      msg_message := turnText Examples.annBob (Examples.down i request) |}
          ∧ agentOfTurn first (S i) = otherAgent agent
          ∧ otherAgent agent ≠ agent
          ∧ ((S i < Z.to_nat (maxTurns Examples.annBob))%nat →
               ∃ text, chatHistory final !! S n
                       = Some {| msg_name := nameOf Examples.annBob (otherAgent agent);
                                 msg_message := text |}).
Proof.
  split; [discriminate|].
  apply (turns_alternate Examples.annBob Examples.down). discriminate.
Defined.

(** ** Failed turns *)

Lemma errorText_cases (cfg : Config) (error : JsError) :
  (err_code error = Some (lit "ECONNREFUSED") →
     errorText cfg error = connectionRefusedText cfg)
  ∧ (err_code error ≠ Some (lit "ECONNREFUSED") → reportsMissingModel cfg error →
       errorText cfg error = modelNotFoundText cfg)
  ∧ (err_code error ≠ Some (lit "ECONNREFUSED") → ¬ reportsMissingModel cfg error →
       errorText cfg error = genericErrorText error).
Proof.
  rewrite /errorText /reportsMissingModel. repeat split.
  - intros H. by rewrite bool_decide_eq_true_2.
  - intros H (m & Hm & Hinc). rewrite bool_decide_eq_false_2 // Hm /=. by rewrite Hinc.
  - intros H Hno. rewrite bool_decide_eq_false_2 //.
    destruct (err_message error) as [m|]; simpl; [|done].
    destruct (includes m _) eqn:Hinc; [|done].
    destruct Hno. by exists m.
Qed.

(** C3. When the backend fails during a turn, the gateway does not raise:
    it returns a text, which is the connection-refused placeholder for an
    error of code ECONNREFUSED, else the model-not-found placeholder when
    the error message reports that the model could not be pulled, else the
    generic placeholder around the error message. That text is appended to
    the history under the acting agent's name, and the call leaves the
    other agent on the timer: the loop goes on with the next call. *)
Theorem failed_turn_continues (cfg : Config) (backend : Backend) (idx : Z)
    (st : RunState) (error : JsError) :
  let currentAgent := nameOf cfg idx in
  let systemPrompt := systemOf cfg idx in
  turnCount st < maxTurns cfg →
  backend (length (requests st)) (chatRequest cfg (chatHistory st) currentAgent systemPrompt)
    = Throw error →
  ∃ text,
    (err_code error = Some (lit "ECONNREFUSED") → text = connectionRefusedText cfg)
    ∧ (err_code error ≠ Some (lit "ECONNREFUSED") → reportsMissingModel cfg error →
         text = modelNotFoundText cfg)
    ∧ (err_code error ≠ Some (lit "ECONNREFUSED") → ¬ reportsMissingModel cfg error →
         text = genericErrorText error)
    ∧ (∀ s, requests s = requests st →
         ∃ s', sendMessageToAgent cfg backend (chatHistory st) currentAgent systemPrompt s
               = (Normal text, s'))
    ∧ ∃ st',
        autoChat cfg backend idx st = (Normal (Some (otherAgent idx)), st')
        ∧ chatHistory st'
          = chatHistory st ++ [{| msg_name := currentAgent; msg_message := text |}]
        ∧ ∀ fuel, eventLoop cfg backend (S fuel) (Some idx) st
                  = eventLoop cfg backend fuel (Some (otherAgent idx)) st'.
Proof.
  intros currentAgent systemPrompt Hlt Hthrow.
  exists (errorText cfg error).
  destruct (errorText_cases cfg error) as (H1 & H2 & H3).
  split; [done|]. split; [done|]. split; [done|]. split.
  - intros s Hs. eexists.
    rewrite sendMessageToAgent_eq Hs. fold currentAgent systemPrompt.
    by rewrite Hthrow.
  - eexists. split; [by apply autoChat_turn|].
    fold currentAgent systemPrompt. rewrite Hthrow /=. split; [done|].
    intros fuel. rewrite autoChat_turn //.
    fold currentAgent systemPrompt. by rewrite Hthrow.
Qed.

Lemma failed_turn_continues_witness :
  turnCount Examples.seeded < maxTurns Examples.annBob
  ∧ Examples.down (length (requests Examples.seeded))
      (chatRequest Examples.annBob (chatHistory Examples.seeded)
         (nameOf Examples.annBob 2) (systemOf Examples.annBob 2))
    = Throw Examples.refused
  ∧ ∃ text,
      (err_code Examples.refused = Some (lit "ECONNREFUSED") →
         text = connectionRefusedText Examples.annBob)
      ∧ (err_code Examples.refused ≠ Some (lit "ECONNREFUSED") →
         reportsMissingModel Examples.annBob Examples.refused →
           text = modelNotFoundText Examples.annBob)
      ∧ (err_code Examples.refused ≠ Some (lit "ECONNREFUSED") →
         ¬ reportsMissingModel Examples.annBob Examples.refused →
           text = genericErrorText Examples.refused)
      ∧ (∀ s, requests s = requests Examples.seeded →
           ∃ s', sendMessageToAgent Examples.annBob Examples.down (chatHistory Examples.seeded)
                   (nameOf Examples.annBob 2) (systemOf Examples.annBob 2) s
                 = (Normal text, s'))
      ∧ ∃ st',
          autoChat Examples.annBob Examples.down 2 Examples.seeded
            = (Normal (Some (otherAgent 2)), st')
          ∧ chatHistory st'
            = chatHistory Examples.seeded
                ++ [{| msg_name := nameOf Examples.annBob 2; msg_message := text |}]
          ∧ ∀ fuel, eventLoop Examples.annBob Examples.down (S fuel) (Some 2) Examples.seeded
                    = eventLoop Examples.annBob Examples.down fuel (Some (otherAgent 2)) st'.
Proof.
  split; [reflexivity|]. split; [reflexivity|].
  apply (failed_turn_continues Examples.annBob Examples.down 2 Examples.seeded Examples.refused);
    reflexivity.
Defined.

(** ** Claims on the context window *)

(** C4. With a positive [chatMaxLength], the context built for an agent has
    at most [chatMaxLength] messages, the system message included. It is the
    system message, present exactly when the system prompt is not empty,
    followed by the last [max 0 (chatMaxLength - slot)] entries of the
    history in their order, each one labelled. When the history is no longer
    than the window, trimming returns it as it is, and the context is the
    system part followed by the whole history, labelled. *)
Theorem context_window_bounded (cfg : Config) (history : MessageList)
    (currentAgent systemPrompt : jsstring) :
  0 < chatMaxLength cfg →
  let window := chatMaxLength cfg - systemSlot systemPrompt in
  let context := buildMessages cfg history currentAgent systemPrompt in
  Z.of_nat (length context) ≤ chatMaxLength cfg
  ∧ (systemPrompt ≠ [] →
       systemSlot systemPrompt = 1
       ∧ systemPart systemPrompt = [{| role := system; content := systemPrompt |}])
  ∧ (systemPrompt = [] → systemSlot systemPrompt = 0 ∧ systemPart systemPrompt = [])
  ∧ context
    = systemPart systemPrompt
      ++ (labelled currentAgent
            <$> drop (length history - Z.to_nat (0 `max` window)) history)
  ∧ (Z.of_nat (length history) ≤ window →
       trimChatHistory history window = history
       ∧ context = systemPart systemPrompt ++ (labelled currentAgent <$> history)).
Proof.
  intros Hpos window context.
  split; [|split; [|split; [|split]]].
  - rewrite /context buildMessages_length.
    rewrite /systemSlot. destruct (truthy systemPrompt); lia.
  - by destruct systemPrompt.
  - by intros ->.
  - rewrite /context buildMessages_eq trimChatHistory_drop. fold window.
    do 3 f_equal. lia.
  - intros Hshort. split; [by apply trimChatHistory_short|].
    rewrite /context buildMessages_eq. fold window.
    by rewrite trimChatHistory_short.
Qed.

Lemma context_window_bounded_witness :
  0 < chatMaxLength Examples.annBob
  ∧ let history := chatHistory Examples.seeded in
    let systemPrompt := agent1System Examples.annBob in
    let window := chatMaxLength Examples.annBob - systemSlot systemPrompt in
    let context := buildMessages Examples.annBob history Examples.ann systemPrompt in
    Z.of_nat (length context) ≤ chatMaxLength Examples.annBob
    ∧ (systemPrompt ≠ [] →
         systemSlot systemPrompt = 1
         ∧ systemPart systemPrompt = [{| role := system; content := systemPrompt |}])
    ∧ (systemPrompt = [] → systemSlot systemPrompt = 0 ∧ systemPart systemPrompt = [])
    ∧ context
      = systemPart systemPrompt
        ++ (labelled Examples.ann
              <$> drop (length history - Z.to_nat (0 `max` window)) history)
    ∧ (Z.of_nat (length history) ≤ window →
         trimChatHistory history window = history
         ∧ context = systemPart systemPrompt ++ (labelled Examples.ann <$> history)).
Proof.
  split; [reflexivity|].
  apply (context_window_bounded Examples.annBob (chatHistory Examples.seeded) Examples.ann
           (agent1System Examples.annBob)).
  reflexivity.
Defined.

Lemma roleOf_assistant (currentAgent : jsstring) (msg : Message) :
  roleOf currentAgent msg = assistant ↔ msg_name msg = currentAgent.
Proof. rewrite /roleOf /str_eq. by case_bool_decide. Qed.

Lemma roleOf_user (currentAgent : jsstring) (msg : Message) :
  roleOf currentAgent msg = user ↔ msg_name msg ≠ currentAgent.
Proof. rewrite /roleOf /str_eq. by case_bool_decide. Qed.

(** C5. The role of an entry depends on who is about to speak. Every entry
    of the trimmed window appears in the context, after the system part and
    at its own position, with its text; its role is [assistant] exactly when
    its speaker is the acting agent, and [user] exactly when it is not. So
    an entry is [assistant] in the context of its own author and [user] in
    the context of any other agent. *)
Theorem roles_viewpoint_relative (cfg : Config) (history : MessageList)
    (currentAgent systemPrompt : jsstring) (j : nat) (msg : Message) :
  trimChatHistory history (chatMaxLength cfg - systemSlot systemPrompt) !! j = Some msg →
  (∃ m,
     buildMessages cfg history currentAgent systemPrompt
       !! (length (systemPart systemPrompt) + j)%nat = Some m
     ∧ content m = msg_message msg
     ∧ (role m = assistant ↔ msg_name msg = currentAgent)
     ∧ (role m = user ↔ msg_name msg ≠ currentAgent))
  ∧ roleOf (msg_name msg) msg = assistant
  ∧ (∀ otherName, otherName ≠ msg_name msg → roleOf otherName msg = user).
Proof.
  intros Hj. split; [|split].
  - exists (labelled currentAgent msg).
    rewrite buildMessages_eq lookup_app_r; [lia|].
    replace (length (systemPart systemPrompt) + j - length (systemPart systemPrompt))%nat
      with j by lia.
    rewrite list_lookup_fmap Hj /=.
    split; [done|]. split; [done|].
    split; [apply roleOf_assistant | apply roleOf_user].
  - by apply roleOf_assistant.
  - intros otherName Hne. by apply roleOf_user.
Qed.

Lemma roles_viewpoint_relative_witness :
  let hi := {| msg_name := Examples.ann; msg_message := lit "hi" |} in
  trimChatHistory (chatHistory Examples.seeded)
    (chatMaxLength Examples.annBob - systemSlot []) !! 0%nat = Some hi
  ∧ (∃ m,
       buildMessages Examples.annBob (chatHistory Examples.seeded) Examples.bob []
         !! (length (systemPart []) + 0)%nat = Some m
       ∧ content m = msg_message hi
       ∧ (role m = assistant ↔ msg_name hi = Examples.bob)
       ∧ (role m = user ↔ msg_name hi ≠ Examples.bob))
  ∧ roleOf (msg_name hi) hi = assistant
  ∧ (∀ otherName, otherName ≠ msg_name hi → roleOf otherName hi = user).
Proof.
  split; [reflexivity|].
  apply (roles_viewpoint_relative Examples.annBob (chatHistory Examples.seeded) Examples.bob []
           0%nat {| msg_name := Examples.ann; msg_message := lit "hi" |}).
  reflexivity.
Defined.

(** C9. When the window left after the system slot is zero or negative, the
    trimmed history is empty for every history: the context is the system
    message alone, or nothing without a system prompt. Building it does not
    fail, and the gateway sends that context and returns a text. *)
Theorem empty_window (cfg : Config) (backend : Backend) (history : MessageList)
    (currentAgent systemPrompt : jsstring) (st : RunState) :
  chatMaxLength cfg - systemSlot systemPrompt ≤ 0 →
  trimChatHistory history (chatMaxLength cfg - systemSlot systemPrompt) = []
  ∧ buildMessages cfg history currentAgent systemPrompt = systemPart systemPrompt
  ∧ (∀ m, m ∈ buildMessages cfg history currentAgent systemPrompt →
          m = {| role := system; content := systemPrompt |} ∧ systemPrompt ≠ [])
  ∧ ∃ text st' request,
      sendMessageToAgent cfg backend history currentAgent systemPrompt st = (Normal text, st')
      ∧ requests st' = requests st ++ [request]
      ∧ messages request = systemPart systemPrompt.
Proof.
  intros Hle.
  assert (buildMessages cfg history currentAgent systemPrompt = systemPart systemPrompt) as Hb.
  { by rewrite buildMessages_eq trimChatHistory_nonpos // app_nil_r. }
  split; [by apply trimChatHistory_nonpos|]. split; [done|]. split.
  - intros m. rewrite Hb /systemPart.
    destruct systemPrompt; simpl; [by intros ?%elem_of_nil|].
    by intros ->%list_elem_of_singleton.
  - eexists _, _, _. rewrite sendMessageToAgent_eq. split; [done|]. split; [done|]. done.
Qed.

Lemma empty_window_witness :
  let cfg := Examples.annBobNarrow in
  let history := chatHistory Examples.seeded in
  let systemPrompt := agent1System cfg in
  chatMaxLength cfg - systemSlot systemPrompt ≤ 0
  ∧ trimChatHistory history (chatMaxLength cfg - systemSlot systemPrompt) = []
  ∧ buildMessages cfg history Examples.ann systemPrompt = systemPart systemPrompt
  ∧ (∀ m, m ∈ buildMessages cfg history Examples.ann systemPrompt →
          m = {| role := system; content := systemPrompt |} ∧ systemPrompt ≠ [])
  ∧ ∃ text st' request,
      sendMessageToAgent cfg Examples.greeting history Examples.ann systemPrompt Examples.seeded
        = (Normal text, st')
      ∧ requests st' = requests Examples.seeded ++ [request]
      ∧ messages request = systemPart systemPrompt.
Proof.
  intros cfg history systemPrompt.
  split; [vm_compute; discriminate|].
  apply (empty_window cfg Examples.greeting history Examples.ann systemPrompt Examples.seeded).
  vm_compute. discriminate.
Defined.

(** ** Claims on the start and on the gateway *)

(** C6. The first agent comes from the speaker of the last seeded entry.
    For two agents with different names: the run is the timer loop started
    with an index [first] over the seeded history, where [first] is 2 when
    that speaker is agent 1, 1 when it is agent 2, and 1 when it is neither;
    in this last case the notice that names the speaker and says that agent
    1 will start is the last line printed before the first turn. *)
Theorem first_agent_from_last_seed (cfg : Config) (backend : Backend) (lastMsg : Message) :
  agent1Name cfg ≠ agent2Name cfg →
  last (initialMessages cfg) = Some lastMsg →
  ∃ first st0,
    (∀ fuel, runChat cfg backend fuel = eventLoop cfg backend fuel (Some first) st0)
    ∧ chatHistory st0 = initialMessages cfg
    ∧ requests st0 = []
    ∧ (msg_name lastMsg = agent1Name cfg → first = 2)
    ∧ (msg_name lastMsg = agent2Name cfg → first = 1)
    ∧ (msg_name lastMsg ≠ agent1Name cfg → msg_name lastMsg ≠ agent2Name cfg →
         first = 1
         ∧ last (terminal st0) = Some (console_log (fallbackNotice cfg (msg_name lastMsg)))).
Proof.
  intros Hdiff Hlast.
  destruct (printInitialMessages_eq (initialState cfg)) as [lines Hp].
  pose proof (nextAgentIndex_eq cfg
    {| chatHistory := initialMessages cfg; turnCount := 0; requests := [];
       terminal := [] ++ lines |} lastMsg Hlast) as Hnext.
  assert (∀ first st0,
            nextAgentIndex cfg
              {| chatHistory := initialMessages cfg; turnCount := 0; requests := [];
                 terminal := [] ++ lines |} = (Normal first, st0) →
            ∀ fuel, runChat cfg backend fuel = eventLoop cfg backend fuel (Some first) st0) as Hrun.
  { intros first st0 H fuel. rewrite /runChat {1}/mbind {1}/M_bind Hp /=.
    simpl in H. by rewrite H. }
  rewrite /str_eq in Hnext.
  case_bool_decide as H1.
  - eexists _, _. split; [by apply Hrun|]. repeat split; try done; congruence.
  - case_bool_decide as H2.
    + eexists _, _. split; [by apply Hrun|]. repeat split; try done; congruence.
    + eexists _, _. split; [by apply Hrun|]. repeat split; try done.
      by rewrite /= last_snoc.
Qed.

Lemma first_agent_from_last_seed_witness :
  let hi := {| msg_name := Examples.ann; msg_message := lit "hi" |} in
  agent1Name Examples.annBob ≠ agent2Name Examples.annBob
  ∧ last (initialMessages Examples.annBob) = Some hi
  ∧ ∃ first st0,
      (∀ fuel, runChat Examples.annBob Examples.greeting fuel
               = eventLoop Examples.annBob Examples.greeting fuel (Some first) st0)
      ∧ chatHistory st0 = initialMessages Examples.annBob
      ∧ requests st0 = []
      ∧ (msg_name hi = agent1Name Examples.annBob → first = 2)
      ∧ (msg_name hi = agent2Name Examples.annBob → first = 1)
      ∧ (msg_name hi ≠ agent1Name Examples.annBob → msg_name hi ≠ agent2Name Examples.annBob →
           first = 1
           ∧ last (terminal st0)
             = Some (console_log (fallbackNotice Examples.annBob (msg_name hi)))).
Proof.
  intros hi.
  split; [vm_compute; discriminate|]. split; [reflexivity|].
  apply (first_agent_from_last_seed Examples.annBob Examples.greeting hi);
    [vm_compute; discriminate | reflexivity].
Defined.

Lemma buildOptions_temperature (cfg : Config) :
  buildOptions cfg !! "temperature"
  = if isDefined (temperature cfg) then Some (temperature cfg) else None.
Proof.
  rewrite /buildOptions /spread_if.
  destruct (isDefined (repeatPenalty cfg)), (isDefined (temperature cfg));
    by simplify_map_eq.
Qed.

Lemma buildOptions_repeat_penalty (cfg : Config) :
  buildOptions cfg !! "repeat_penalty"
  = if isDefined (repeatPenalty cfg) then Some (repeatPenalty cfg) else None.
Proof.
  rewrite /buildOptions /spread_if.
  destruct (isDefined (repeatPenalty cfg)), (isDefined (temperature cfg));
    by simplify_map_eq.
Qed.

(** What is left of a setting read with [?? undefined]. *)
Lemma nullish_undefined (v : JsVal) :
  (if isDefined (nullish v JUndefined) then Some (nullish v JUndefined) else None)
  = sentFor v.
Proof. by destruct v. Qed.

(** C7. In every request sent to the backend, [temperature] and
    [repeat_penalty] are properties of [options] exactly when the
    configuration value is defined, and then with that value; a value that
    is not defined leaves no property at all. For a configuration loaded
    from a settings file, a setting that is absent or null is not defined,
    so neither null nor undefined is ever sent for these two. *)
Theorem optional_parameters_omitted (s : settings.t) (cfg : Config) (backend : Backend)
    (history : MessageList) (currentAgent systemPrompt : jsstring) (st : RunState) :
  loadSettings s = Some cfg →
  ∃ text st' request,
    sendMessageToAgent cfg backend history currentAgent systemPrompt st = (Normal text, st')
    ∧ requests st' = requests st ++ [request]
    ∧ options request !! "temperature"
      = (if isDefined (temperature cfg) then Some (temperature cfg) else None)
    ∧ options request !! "repeat_penalty"
      = (if isDefined (repeatPenalty cfg) then Some (repeatPenalty cfg) else None)
    ∧ options request !! "temperature"
      = sentFor (settings.temperature s)
    ∧ options request !! "repeat_penalty"
      = sentFor (settings.repeatPenalty s)
    ∧ (∀ k, options request !! k ≠ Some JNull ∧ options request !! k ≠ Some JUndefined).
Proof.
  intros Hload.
  assert (temperature cfg = nullish (settings.temperature s) JUndefined
          ∧ repeatPenalty cfg = nullish (settings.repeatPenalty s) JUndefined) as [Ht Hr].
  { rewrite /loadSettings in Hload.
    destruct (settings.agent1Name s), (settings.agent2Name s), (settings.initialMessages s);
      try done.
    destruct (_ || _); [done|]. injection Hload as <-. split; reflexivity. }
  eexists _, _, _. rewrite sendMessageToAgent_eq. split; [done|]. split; [done|].
  cbn [options chatRequest].
  rewrite buildOptions_temperature buildOptions_repeat_penalty.
  split; [done|]. split; [done|].
  rewrite Ht Hr !nullish_undefined. split; [done|]. split; [done|].
  intros k. rewrite /buildOptions /spread_if Ht Hr.
  destruct (settings.temperature s), (settings.repeatPenalty s); simpl;
    rewrite ?lookup_union ?lookup_singleton ?lookup_empty;
    repeat case_decide; by simpl.
Qed.

Lemma optional_parameters_omitted_witness :
  loadSettings Examples.annBobSettings = Some Examples.annBob
  ∧ ∃ text st' request,
      sendMessageToAgent Examples.annBob Examples.greeting (chatHistory Examples.seeded)
        Examples.bob [] Examples.seeded = (Normal text, st')
      ∧ requests st' = requests Examples.seeded ++ [request]
      ∧ options request !! "temperature"
        = (if isDefined (temperature Examples.annBob)
           then Some (temperature Examples.annBob) else None)
      ∧ options request !! "repeat_penalty"
        = (if isDefined (repeatPenalty Examples.annBob)
           then Some (repeatPenalty Examples.annBob) else None)
      ∧ options request !! "temperature"
        = sentFor (settings.temperature Examples.annBobSettings)
      ∧ options request !! "repeat_penalty"
        = sentFor (settings.repeatPenalty Examples.annBobSettings)
      ∧ (∀ k, options request !! k ≠ Some JNull ∧ options request !! k ≠ Some JUndefined).
Proof.
  split; [reflexivity|].
  apply (optional_parameters_omitted Examples.annBobSettings Examples.annBob Examples.greeting
           (chatHistory Examples.seeded) Examples.bob [] Examples.seeded).
  reflexivity.
Defined.

Lemma trimmedContent_eq (response : option ChatResponse) :
  trimmedContent response
  = match contentOf response with
    | Some c => Some (trim c)
    | None => None
    end.
Proof.
  destruct response as [[[[[c|]]|]]|]; reflexivity.
Qed.

(** C8. When the backend answers, the text of the turn is the content of
    the answer's message without the white space at its two ends: the
    content is that text between two runs of white space, and the text
    neither starts nor ends with white space. When the content is absent
    the text is the fallback sentence. *)
Theorem reply_is_trimmed_content (cfg : Config) (backend : Backend) (history : MessageList)
    (currentAgent systemPrompt : jsstring) (st : RunState) (response : option ChatResponse) :
  backend (length (requests st)) (chatRequest cfg history currentAgent systemPrompt)
    = Normal response →
  ∃ text st',
    sendMessageToAgent cfg backend history currentAgent systemPrompt st = (Normal text, st')
    ∧ (∀ c, contentOf response = Some c →
         text = trim c
         ∧ ∃ pre post,
             c = pre ++ text ++ post
             ∧ allWhiteSpace pre
             ∧ allWhiteSpace post
             ∧ (∀ u, head text = Some u → isWhiteSpace u = false)
             ∧ (∀ u, last text = Some u → isWhiteSpace u = false))
    ∧ (contentOf response = None →
         text = lit "No valid content received from the Ollama model.").
Proof.
  intros Hok. eexists _, _.
  rewrite sendMessageToAgent_eq Hok /= trimmedContent_eq.
  split; [done|]. split.
  - intros c ->. split; [done|]. apply trim_spec.
  - by intros ->.
Qed.

Lemma reply_is_trimmed_content_witness :
  let response := Some {| resp_message := Some {| resp_content := Some (lit " hello ") |} |} in
  Examples.greeting (length (requests Examples.seeded))
    (chatRequest Examples.annBob (chatHistory Examples.seeded) Examples.bob [])
    = Normal response
  ∧ ∃ text st',
      sendMessageToAgent Examples.annBob Examples.greeting (chatHistory Examples.seeded)
        Examples.bob [] Examples.seeded = (Normal text, st')
      ∧ (∀ c, contentOf response = Some c →
           text = trim c
           ∧ ∃ pre post,
               c = pre ++ text ++ post
               ∧ allWhiteSpace pre
               ∧ allWhiteSpace post
               ∧ (∀ u, head text = Some u → isWhiteSpace u = false)
               ∧ (∀ u, last text = Some u → isWhiteSpace u = false))
      ∧ (contentOf response = None →
           text = lit "No valid content received from the Ollama model.").
Proof.
  intros response. split; [reflexivity|].
  apply (reply_is_trimmed_content Examples.annBob Examples.greeting (chatHistory Examples.seeded)
           Examples.bob [] Examples.seeded response).
  reflexivity.
Defined.

(** C10. The fallback sentence stands in for an absent content only: the
    trimmed content is missing exactly when the content is. For a content
    that is white space only, the empty string included, the gateway returns
    the empty string, which is not the fallback sentence, and the turn
    appends an entry with an empty text under the acting agent's name. *)
Theorem blank_content_gives_empty_text (cfg : Config) (backend : Backend) (idx : Z)
    (st : RunState) (response : option ChatResponse) (c : jsstring) :
  let currentAgent := nameOf cfg idx in
  let systemPrompt := systemOf cfg idx in
  turnCount st < maxTurns cfg →
  backend (length (requests st)) (chatRequest cfg (chatHistory st) currentAgent systemPrompt)
    = Normal response →
  contentOf response = Some c →
  allWhiteSpace c →
  (∀ r, trimmedContent r = None ↔ contentOf r = None)
  ∧ (∀ s, requests s = requests st →
       ∃ s', sendMessageToAgent cfg backend (chatHistory st) currentAgent systemPrompt s
             = (Normal [], s'))
  ∧ [] ≠ fallbackText
  ∧ ∃ st',
      autoChat cfg backend idx st = (Normal (Some (otherAgent idx)), st')
      ∧ chatHistory st'
        = chatHistory st ++ [{| msg_name := currentAgent; msg_message := [] |}].
Proof.
  intros currentAgent systemPrompt Hlt Hok Hc Hws.
  assert (turnText cfg (Normal response) = []) as Htext.
  { by rewrite /= trimmedContent_eq Hc /= trim_all_white. }
  split; [|split; [|split]].
  - intros r. rewrite trimmedContent_eq. by destruct (contentOf r).
  - intros s Hs. eexists.
    rewrite sendMessageToAgent_eq Hs. fold currentAgent systemPrompt.
    by rewrite Hok Htext.
  - done.
  - eexists. split; [by apply autoChat_turn|].
    fold currentAgent systemPrompt. by rewrite Hok /afterTurn Htext.
Qed.

Lemma blank_content_gives_empty_text_witness :
  let cfg := Examples.annBob in
  let response := Some {| resp_message := Some {| resp_content := Some (lit "   ") |} |} in
  turnCount Examples.seeded < maxTurns cfg
  ∧ Examples.blank (length (requests Examples.seeded))
      (chatRequest cfg (chatHistory Examples.seeded) (nameOf cfg 2) (systemOf cfg 2))
    = Normal response
  ∧ contentOf response = Some (lit "   ")
  ∧ allWhiteSpace (lit "   ")
  ∧ (∀ r, trimmedContent r = None ↔ contentOf r = None)
  ∧ (∀ s, requests s = requests Examples.seeded →
       ∃ s', sendMessageToAgent cfg Examples.blank (chatHistory Examples.seeded)
               (nameOf cfg 2) (systemOf cfg 2) s
             = (Normal [], s'))
  ∧ [] ≠ fallbackText
  ∧ ∃ st',
      autoChat cfg Examples.blank 2 Examples.seeded = (Normal (Some (otherAgent 2)), st')
      ∧ chatHistory st'
        = chatHistory Examples.seeded ++ [{| msg_name := nameOf cfg 2; msg_message := [] |}].
Proof.
  intros cfg response.
  assert (allWhiteSpace (lit "   ")) as Hws by (repeat constructor).
  split; [reflexivity|]. split; [reflexivity|]. split; [reflexivity|]. split; [exact Hws|].
  apply (blank_content_gives_empty_text cfg Examples.blank 2 Examples.seeded response (lit "   "));
    [reflexivity | reflexivity | reflexivity | exact Hws].
Defined.

(** ** The sample run, evaluated *)

Section Scenarios.

Import Examples.

(** The settings of the sample load to its configuration. *)
Example annBob_loaded : loadSettings annBobSettings = Some annBob.
Proof. reflexivity. Qed.

(** Ann spoke last, so Bob starts and Ann follows; the answers are trimmed. *)
Example annBob_speakers : speakers (runChat annBob greeting 3) = Some [ann; bob; ann].
Proof. vm_compute. reflexivity. Qed.

Example annBob_texts :
  texts (runChat annBob greeting 3) = Some [lit "hi"; lit "hello"; lit "hello"].
Proof. vm_compute. reflexivity. Qed.

(** Two turns need three calls of [autoChat]: two calls are not enough. *)
Example annBob_short_of_fuel : runChat annBob greeting 2 = None.
Proof. vm_compute. reflexivity. Qed.

(** With the backend down, both turns still happen and carry the placeholder. *)
Example annBob_down :
  texts (runChat annBob down 3)
  = Some [lit "hi"; connectionRefusedText annBob; connectionRefusedText annBob].
Proof. vm_compute. reflexivity. Qed.

(** A window of three with a system prompt over ten messages: the system
    message and the last two entries, seen by Ann. *)
Example window_of_three :
  buildMessages annBob tenMessages ann (agent1System annBob)
  = [{| role := system; content := lit "You are Ann." |};
     {| role := assistant; content := lit "8" |};
     {| role := user; content := lit "9" |}].
Proof. vm_compute. reflexivity. Qed.

(** The same window seen by Bob, who has no system prompt: three entries. *)
Example window_of_three_for_bob :
  buildMessages annBob tenMessages bob (agent2System annBob)
  = [{| role := assistant; content := lit "7" |};
     {| role := user; content := lit "8" |};
     {| role := assistant; content := lit "9" |}].
Proof. vm_compute. reflexivity. Qed.

(** [trim] takes the ideographic space and the line ends too. *)
Example trim_wide_space : trim [0x3000; 0x41; 0x20; 0x42; 0x0D; 0x0A]%N = [0x41; 0x20; 0x42]%N.
Proof. reflexivity. Qed.

End Scenarios.

(** * Further properties *)

(** ** Loading and checking the settings *)

(** A name that is absent or empty. *)
Lemma str_or_nil (s : option jsstring) :
  str_or s [] = [] ↔ s = None ∨ s = Some [].
Proof.
  destruct s as [[|c s]|]; simpl; split; try done; auto.
  - by intros [|].
Qed.


(** The fields of a configuration that passes the check. *)
Lemma loadSettings_inv (s : settings.t) (cfg : Config) :
  loadSettings s = Some cfg →
  (agent1Name cfg ≠ [] ∧ agent2Name cfg ≠ [] ∧ initialMessages cfg ≠ [])
  ∧ (ollamaHost cfg ≠ [] ∧ ollamaModel cfg ≠ [])
  ∧ (maxTurns cfg ≠ 0 ∧ chatMaxLength cfg ≠ 0)
  ∧ (temperature cfg ≠ JNull ∧ repeatPenalty cfg ≠ JNull ∧ ollamaKeepAlive cfg ≠ JNull)
  ∧ (settings.ollamaHost s = None ∨ settings.ollamaHost s = Some [] →
       ollamaHost cfg = lit "http://localhost:11434")
  ∧ (settings.ollamaModel s = None ∨ settings.ollamaModel s = Some [] →
       ollamaModel cfg = lit "llama2")
  ∧ (settings.maxTurns s = None ∨ settings.maxTurns s = Some 0 → maxTurns cfg = 20)
  ∧ (settings.chatMaxLength s = None ∨ settings.chatMaxLength s = Some 0 →
       chatMaxLength cfg = 20)
  ∧ (∀ n, settings.maxTurns s = Some n → n ≠ 0 → maxTurns cfg = n)
  ∧ (∀ n, settings.chatMaxLength s = Some n → n ≠ 0 → chatMaxLength cfg = n).
Proof.
  rewrite /loadSettings.
  destruct (settings.agent1Name s) as [[|c1 a1]|]; try done;
    destruct (settings.agent2Name s) as [[|c2 a2]|]; try done;
    destruct (settings.initialMessages s) as [[|m init]|]; try done.
  simpl. intros [= <-]. simpl.
  split; [done|]. split.
  { split.
    - by destruct (settings.ollamaHost s) as [[|??]|].
    - by destruct (settings.ollamaModel s) as [[|??]|]. }
  split.
  { split.
    - destruct (settings.maxTurns s) as [n|]; simpl; [|done].
      destruct (Z.eqb_spec n 0); [done|done].
    - destruct (settings.chatMaxLength s) as [n|]; simpl; [|done].
      destruct (Z.eqb_spec n 0); [done|done]. }
  split.
  { split; [|split].
    - by destruct (settings.temperature s).
    - by destruct (settings.repeatPenalty s).
    - by destruct (settings.ollamaKeepAlive s). }
  split; [by intros [->| ->]|]. split; [by intros [->| ->]|].
  split; [by intros [->| ->]|]. split; [by intros [->| ->]|].
  split.
  - intros n -> Hn. simpl. by destruct (Z.eqb_spec n 0).
  - intros n -> Hn. simpl. by destruct (Z.eqb_spec n 0).
Qed.

(** What holds of every configuration that passes the check: the names and
    the seed are not empty, the host and the model are not empty, the turn
    cap and the window are not zero, and the optional values are never
    null. The defaults stand in for what is absent, empty or zero; a
    negative number is kept as it is. *)
Theorem loadSettings_defaults (s : settings.t) (cfg : Config) :
  loadSettings s = Some cfg →
  (agent1Name cfg ≠ [] ∧ agent2Name cfg ≠ [] ∧ initialMessages cfg ≠ [])
  ∧ (ollamaHost cfg ≠ [] ∧ ollamaModel cfg ≠ [])
  ∧ (maxTurns cfg ≠ 0 ∧ chatMaxLength cfg ≠ 0)
  ∧ (temperature cfg ≠ JNull ∧ repeatPenalty cfg ≠ JNull ∧ ollamaKeepAlive cfg ≠ JNull)
  ∧ (settings.ollamaHost s = None ∨ settings.ollamaHost s = Some [] →
       ollamaHost cfg = lit "http://localhost:11434")
  ∧ (settings.ollamaModel s = None ∨ settings.ollamaModel s = Some [] →
       ollamaModel cfg = lit "llama2")
  ∧ (settings.maxTurns s = None ∨ settings.maxTurns s = Some 0 → maxTurns cfg = 20)
  ∧ (settings.chatMaxLength s = None ∨ settings.chatMaxLength s = Some 0 →
       chatMaxLength cfg = 20)
  ∧ (∀ n, settings.maxTurns s = Some n → n ≠ 0 → maxTurns cfg = n)
  ∧ (∀ n, settings.chatMaxLength s = Some n → n ≠ 0 → chatMaxLength cfg = n).
Proof. apply loadSettings_inv. Qed.

Lemma loadSettings_defaults_witness :
  let s := Examples.annBobSettings in
  let cfg := Examples.annBob in
  loadSettings s = Some cfg
  ∧ (agent1Name cfg ≠ [] ∧ agent2Name cfg ≠ [] ∧ initialMessages cfg ≠ [])
  ∧ (ollamaHost cfg ≠ [] ∧ ollamaModel cfg ≠ [])
  ∧ (maxTurns cfg ≠ 0 ∧ chatMaxLength cfg ≠ 0)
  ∧ (temperature cfg ≠ JNull ∧ repeatPenalty cfg ≠ JNull ∧ ollamaKeepAlive cfg ≠ JNull)
  ∧ (settings.ollamaHost s = None ∨ settings.ollamaHost s = Some [] →
       ollamaHost cfg = lit "http://localhost:11434")
  ∧ (settings.ollamaModel s = None ∨ settings.ollamaModel s = Some [] →
       ollamaModel cfg = lit "llama2")
  ∧ (settings.maxTurns s = None ∨ settings.maxTurns s = Some 0 → maxTurns cfg = 20)
  ∧ (settings.chatMaxLength s = None ∨ settings.chatMaxLength s = Some 0 →
       chatMaxLength cfg = 20)
  ∧ (∀ n, settings.maxTurns s = Some n → n ≠ 0 → maxTurns cfg = n)
  ∧ (∀ n, settings.chatMaxLength s = Some n → n ≠ 0 → chatMaxLength cfg = n).
Proof.
  intros s cfg. split; [reflexivity|].
  apply (loadSettings_defaults s cfg). reflexivity.
Defined.

(** ** What the timer loop keeps *)

Section LoopInvariant.

Variable cfg : Config.
Variable backend : Backend.

(** The loop, whenever it ends: no exception, the three logs only grow at
    their end, and the entries added, the requests sent and the increase of
    [turnCount] are the same number; a loop that had a call to run ends at
    the cap or above. *)
Lemma eventLoop_inv (fuel : nat) (timer : option Z) (st st' : RunState) (c : Completion ()) :
  eventLoop cfg backend fuel timer st = Some (c, st') →
  c = Normal ()
  ∧ chatHistory st `prefix_of` chatHistory st'
  ∧ requests st `prefix_of` requests st'
  ∧ terminal st `prefix_of` terminal st'
  ∧ Z.of_nat (length (chatHistory st')) - Z.of_nat (length (chatHistory st))
    = turnCount st' - turnCount st
  ∧ Z.of_nat (length (requests st')) - Z.of_nat (length (requests st))
    = turnCount st' - turnCount st
  ∧ turnCount st ≤ turnCount st'
  ∧ (is_Some timer → maxTurns cfg ≤ turnCount st').
Proof.
  revert timer st. induction fuel as [|fuel IH]; intros timer st H.
  - destruct timer; [done|]. simpl in H. simplify_eq.
    repeat split; try done; try lia; try by intros [??].
  - destruct timer as [idx|]; simpl in H;
      [|simplify_eq; repeat split; try done; try lia; try by intros [??]].
    destruct (Z.lt_ge_cases (turnCount st) (maxTurns cfg)) as [Hlt|Hge].
    + rewrite autoChat_turn // in H.
      apply IH in H as (Hc & Hh & Hr & Ht & Hn & Hm & Hle & Hcap).
      simpl in *. rewrite !length_app /= in Hn Hm.
      split; [done|]. split; [by eapply prefix_app_l|].
      split; [by eapply prefix_app_l|]. split; [by eapply prefix_app_l|].
      repeat split; try lia. intros _. by apply Hcap.
    + destruct (autoChat_finished cfg backend idx st Hge) as [line Hfin].
      rewrite Hfin in H. destruct fuel; simpl in H; simplify_eq; simpl.
      * repeat split; try done; try lia. by apply prefix_app_r.
      * repeat split; try done; try lia. by apply prefix_app_r.
Qed.

End LoopInvariant.

(** The timer loop never ends on an exception, whatever the backend does,
    and it only appends: the history, the requests sent and the terminal
    output at its start are kept as they are at the head of what they are at
    its end. *)
Theorem eventLoop_appends_only (cfg : Config) (backend : Backend) (fuel : nat)
    (timer : option Z) (st st' : RunState) (c : Completion ()) :
  eventLoop cfg backend fuel timer st = Some (c, st') →
  c = Normal ()
  ∧ chatHistory st `prefix_of` chatHistory st'
  ∧ requests st `prefix_of` requests st'
  ∧ terminal st `prefix_of` terminal st'.
Proof.
  intros H. apply eventLoop_inv in H as (? & ? & ? & ? & _). done.
Qed.

Lemma eventLoop_appends_only_witness :
  let st' := Examples.greetingEnd in
  eventLoop Examples.annBob Examples.greeting 3 (Some 2) Examples.seeded = Some (Normal (), st')
  ∧ Normal () = Normal ()
  ∧ chatHistory Examples.seeded `prefix_of` chatHistory st'
  ∧ requests Examples.seeded `prefix_of` requests st'
  ∧ terminal Examples.seeded `prefix_of` terminal st'.
Proof.
  intros st'.
  assert (eventLoop Examples.annBob Examples.greeting 3 (Some 2) Examples.seeded
          = Some (Normal (), st')) as Hrun.
  { destruct (eventLoop_run Examples.annBob Examples.greeting 3 2 Examples.seeded)
      as [line Hline]; [simpl; lia|].
    rewrite /st' /Examples.greetingEnd Hline. reflexivity. }
  split; [exact Hrun|].
  apply (eventLoop_appends_only Examples.annBob Examples.greeting 3 (Some 2)
           Examples.seeded st' (Normal ())).
  exact Hrun.
Defined.

(** The three counters of the loop agree: between its start and its end the
    number of entries added to the history, the number of requests sent to
    the backend and the increase of [turnCount] are equal; and a loop that
    had a call to run stops only once [turnCount] has reached the cap. *)
Theorem eventLoop_counts (cfg : Config) (backend : Backend) (fuel : nat)
    (idx : Z) (st st' : RunState) (c : Completion ()) :
  eventLoop cfg backend fuel (Some idx) st = Some (c, st') →
  Z.of_nat (length (chatHistory st')) - Z.of_nat (length (chatHistory st))
    = turnCount st' - turnCount st
  ∧ Z.of_nat (length (requests st')) - Z.of_nat (length (requests st))
    = turnCount st' - turnCount st
  ∧ turnCount st ≤ turnCount st'
  ∧ maxTurns cfg ≤ turnCount st'.
Proof.
  intros H. apply eventLoop_inv in H as (_ & _ & _ & _ & ? & ? & ? & Hcap).
  repeat split; try done. by apply Hcap.
Qed.

Lemma eventLoop_counts_witness :
  let st := Examples.seeded in
  let st' := Examples.greetingEnd in
  eventLoop Examples.annBob Examples.greeting 3 (Some 2) st = Some (Normal (), st')
  ∧ Z.of_nat (length (chatHistory st')) - Z.of_nat (length (chatHistory st))
    = turnCount st' - turnCount st
  ∧ Z.of_nat (length (requests st')) - Z.of_nat (length (requests st))
    = turnCount st' - turnCount st
  ∧ turnCount st ≤ turnCount st'
  ∧ maxTurns Examples.annBob ≤ turnCount st'.
Proof.
  intros st st'.
  assert (eventLoop Examples.annBob Examples.greeting 3 (Some 2) st
          = Some (Normal (), st')) as Hrun.
  { destruct (eventLoop_run Examples.annBob Examples.greeting 3 2 Examples.seeded)
      as [line Hline]; [simpl; lia|].
    rewrite /st /st' /Examples.greetingEnd Hline. reflexivity. }
  split; [exact Hrun|].
  apply (eventLoop_counts Examples.annBob Examples.greeting 3 2 st st' (Normal ())).
  exact Hrun.
Defined.

(** ** Whole runs *)



(** A turn cap that is not positive (a negative [maxTurns] in the file; zero
    is replaced by twenty when loading) gives a run without any turn: the
    first call of [autoChat] prints the closing line, no request is sent and
    the history stays the seed. *)
Theorem nonpositive_cap_no_turn (cfg : Config) (backend : Backend) :
  maxTurns cfg ≤ 0 →
  initialMessages cfg ≠ [] →
  ∃ final,
    (∀ fuel, (0 < fuel)%nat → runChat cfg backend fuel = Some (Normal (), final))
    ∧ chatHistory final = initialMessages cfg
    ∧ requests final = []
    ∧ turnCount final = 0
    ∧ ∃ line, last (terminal final) = Some (console_log line).
Proof.
  intros Hcap Hne.
  destruct (runChat_eq cfg backend Hne) as (first & st0 & line & _ & Hh & Ht & Hr & Hrun).
  replace (Z.to_nat (maxTurns cfg)) with 0%nat in Hrun by lia.
  eexists. split; [exact Hrun|]. simpl.
  split; [done|]. split; [done|]. split; [done|].
  exists line. by rewrite last_snoc.
Qed.

Lemma nonpositive_cap_no_turn_witness :
  let cfg := {|
    agent1Name := Examples.ann; agent2Name := Examples.bob;
    agent1System := []; agent2System := [];
    initialMessages := [{| msg_name := Examples.ann; msg_message := lit "hi" |}];
    ollamaHost := lit "http://localhost:11434"; ollamaModel := lit "llama2";
    ollamaKeepAlive := JUndefined; maxTurns := -1; chatMaxLength := 20;
    temperature := JUndefined; repeatPenalty := JUndefined |} in
  maxTurns cfg ≤ 0
  ∧ initialMessages cfg ≠ []
  ∧ ∃ final,
      (∀ fuel, (0 < fuel)%nat → runChat cfg Examples.greeting fuel = Some (Normal (), final))
      ∧ chatHistory final = initialMessages cfg
      ∧ requests final = []
      ∧ turnCount final = 0
      ∧ ∃ line, last (terminal final) = Some (console_log line).
Proof.
  intros cfg. split; [vm_compute; discriminate|]. split; [discriminate|].
  apply (nonpositive_cap_no_turn cfg Examples.greeting); [vm_compute; discriminate|discriminate].
Defined.

(** ** Trimming *)

Lemma trimChatHistory_min (history : MessageList) (n m : Z) :
  trimChatHistory (trimChatHistory history n) m = trimChatHistory history (n `min` m).
Proof.
  rewrite (trimChatHistory_drop (trimChatHistory _ _)) trimChatHistory_length.
  rewrite !trimChatHistory_drop drop_drop. f_equal. lia.
Qed.

(** Trimming twice is trimming once to the smaller bound, in either order
    and for any bounds, negative ones included. So trimming again to the
    same bound changes nothing. *)
Theorem trimChatHistory_twice (history : MessageList) (n m : Z) :
  trimChatHistory (trimChatHistory history n) m = trimChatHistory history (n `min` m)
  ∧ trimChatHistory (trimChatHistory history n) n = trimChatHistory history n.
Proof.
  split; [apply trimChatHistory_min|]. by rewrite trimChatHistory_min Z.min_id.
Qed.

(** Trimming keeps an end of the history and nothing else, and a wider
    bound keeps at least what a narrower one keeps. *)
Theorem trimChatHistory_suffix (history : MessageList) (n m : Z) :
  n ≤ m →
  trimChatHistory history n `suffix_of` trimChatHistory history m
  ∧ trimChatHistory history m `suffix_of` history.
Proof.
  intros Hle. split.
  - pose proof (trimChatHistory_min history m n) as H.
    rewrite Z.min_r // in H. rewrite -H trimChatHistory_drop. apply suffix_drop.
  - rewrite trimChatHistory_drop. apply suffix_drop.
Qed.

Lemma trimChatHistory_suffix_witness :
  2 ≤ 5
  ∧ trimChatHistory Examples.tenMessages 2 `suffix_of` trimChatHistory Examples.tenMessages 5
  ∧ trimChatHistory Examples.tenMessages 5 `suffix_of` Examples.tenMessages.
Proof.
  split; [vm_compute; discriminate|].
  apply (trimChatHistory_suffix Examples.tenMessages 2 5). vm_compute; discriminate.
Defined.

(** ** Requests *)

(** The only properties that [options] can have are [temperature] and
    [repeat_penalty], each with the value of its global and only when that
    global is defined; with both undefined the object is empty. *)
Theorem buildOptions_keys (cfg : Config) :
  (∀ k v, buildOptions cfg !! k = Some v →
          (k = "temperature" ∧ v = temperature cfg ∧ v ≠ JUndefined)
          ∨ (k = "repeat_penalty" ∧ v = repeatPenalty cfg ∧ v ≠ JUndefined))
  ∧ (temperature cfg = JUndefined → repeatPenalty cfg = JUndefined → buildOptions cfg = ∅).
Proof.
  split.
  - intros k v. rewrite /buildOptions /spread_if.
    destruct (repeatPenalty cfg) eqn:Hr, (temperature cfg) eqn:Ht; simpl;
      rewrite ?lookup_union ?lookup_singleton ?lookup_empty;
      repeat case_decide; intros Hlk; cbv in Hlk; simplify_eq;
      first [by left | by right].
  - intros Ht Hr. by rewrite /buildOptions Ht Hr.
Qed.

Section Requests.

Variable cfg : Config.
Variable backend : Backend.

(** With room for one entry at least, the context ends with the newest
    entry of the history. *)
Lemma buildMessages_last (history : MessageList) (newest : Message)
    (currentAgent systemPrompt : jsstring) :
  1 ≤ chatMaxLength cfg - systemSlot systemPrompt →
  last (buildMessages cfg (history ++ [newest]) currentAgent systemPrompt)
  = Some (labelled currentAgent newest).
Proof.
  intros Hroom. rewrite buildMessages_eq trimChatHistory_drop length_app /=.
  rewrite drop_app_le; [lia|].
  by rewrite fmap_app /= app_assoc last_snoc.
Qed.

(** Every request that [k] turns add is one that [chatRequest] builds. *)
Lemma afterTurns_requests_built (k : nat) (idx : Z) (st : RunState) (req : ChatRequest) :
  req ∈ requests (afterTurns cfg backend k idx st) →
  req ∈ requests st
  ∨ ∃ history agent, req = chatRequest cfg history (nameOf cfg agent) (systemOf cfg agent).
Proof.
  revert idx st. induction k as [|k IH]; intros idx st; simpl; [auto|].
  intros [Hin|Hnew]%IH; [|by right].
  simpl in Hin. apply elem_of_app in Hin as [Hin|Hin%list_elem_of_singleton]; [by left|].
  right. eauto.
Qed.

End Requests.

(** No request of a run is larger than the window: with a positive
    [chatMaxLength], every request sent during a run carries at most
    [chatMaxLength] messages, however long the history has grown, and each
    one names the configured model and keep-alive and carries the same
    [options]. *)
Theorem run_requests_bounded (cfg : Config) (backend : Backend) :
  0 < chatMaxLength cfg →
  initialMessages cfg ≠ [] →
  ∃ final,
    (∀ fuel, (Z.to_nat (maxTurns cfg) < fuel)%nat →
       runChat cfg backend fuel = Some (Normal (), final))
    ∧ ∀ req, req ∈ requests final →
        Z.of_nat (length (messages req)) ≤ chatMaxLength cfg
        ∧ model req = ollamaModel cfg
        ∧ keep_alive req = ollamaKeepAlive cfg
        ∧ options req = buildOptions cfg.
Proof.
  intros Hpos Hne.
  destruct (runChat_eq cfg backend Hne) as (first & st0 & line & _ & _ & _ & Hr & Hrun).
  eexists. split; [exact Hrun|].
  intros req Hin. simpl in Hin.
  apply afterTurns_requests_built in Hin as [Hin|(history & agent & ->)].
  { rewrite Hr in Hin. by apply elem_of_nil in Hin. }
  split; [|done]. simpl.
  rewrite buildMessages_length /systemSlot.
  destruct (truthy (systemOf cfg agent)); lia.
Qed.

Lemma run_requests_bounded_witness :
  let cfg := Examples.annBob in
  0 < chatMaxLength cfg
  ∧ initialMessages cfg ≠ []
  ∧ ∃ final,
      (∀ fuel, (Z.to_nat (maxTurns cfg) < fuel)%nat →
         runChat cfg Examples.greeting fuel = Some (Normal (), final))
      ∧ ∀ req, req ∈ requests final →
          Z.of_nat (length (messages req)) ≤ chatMaxLength cfg
          ∧ model req = ollamaModel cfg
          ∧ keep_alive req = ollamaKeepAlive cfg
          ∧ options req = buildOptions cfg.
Proof.
  intros cfg. split; [reflexivity|]. split; [discriminate|].
  apply (run_requests_bounded cfg Examples.greeting); [reflexivity|discriminate].
Defined.

(** What an agent says is what the other one is asked about next: when the
    two names differ and the window of the next agent has room for one
    entry, the request of the turn that follows a turn ends with the text
    just appended, with the role [user]. *)
Theorem reply_is_fed_back (cfg : Config) (backend : Backend) (idx : Z) (st : RunState) :
  agent1Name cfg ≠ agent2Name cfg →
  1 ≤ chatMaxLength cfg - systemSlot (systemOf cfg (otherAgent idx)) →
  turnCount st + 1 < maxTurns cfg →
  ∃ st1 st2 text request next,
    autoChat cfg backend idx st = (Normal (Some (otherAgent idx)), st1)
    ∧ chatHistory st1 = chatHistory st ++ [{| msg_name := nameOf cfg idx; msg_message := text |}]
    ∧ autoChat cfg backend (otherAgent idx) st1 = (Normal next, st2)
    ∧ requests st2 = requests st1 ++ [request]
    ∧ last (messages request) = Some {| role := user; content := text |}.
Proof.
  intros Hdiff Hroom Hlt.
  eexists _, _, _, _, _.
  split; [apply autoChat_turn; lia|]. split; [done|].
  split; [apply autoChat_turn; simpl; lia|]. split; [done|].
  simpl. rewrite buildMessages_last // /labelled /roleOf /str_eq /=.
  rewrite bool_decide_eq_false_2 //.
  rewrite /nameOf /otherAgent.
  destruct (idx =? 1); simpl; congruence.
Qed.

Lemma reply_is_fed_back_witness :
  let cfg := Examples.annBob in
  let st := Examples.seeded in
  agent1Name cfg ≠ agent2Name cfg
  ∧ 1 ≤ chatMaxLength cfg - systemSlot (systemOf cfg (otherAgent 2))
  ∧ turnCount st + 1 < maxTurns cfg
  ∧ ∃ st1 st2 text request next,
      autoChat cfg Examples.greeting 2 st = (Normal (Some (otherAgent 2)), st1)
      ∧ chatHistory st1 = chatHistory st ++ [{| msg_name := nameOf cfg 2; msg_message := text |}]
      ∧ autoChat cfg Examples.greeting (otherAgent 2) st1 = (Normal next, st2)
      ∧ requests st2 = requests st1 ++ [request]
      ∧ last (messages request) = Some {| role := user; content := text |}.
Proof.
  intros cfg st.
  split; [vm_compute; discriminate|]. split; [vm_compute; discriminate|].
  split; [reflexivity|].
  apply (reply_is_fed_back cfg Examples.greeting 2 st);
    [vm_compute; discriminate | vm_compute; discriminate | reflexivity].
Defined.

(** ** The error placeholders *)

(** [includes] finds exactly the contiguous occurrences. *)
Lemma includes_spec (s pat : jsstring) :
  includes s pat = true ↔ ∃ pre post, s = pre ++ pat ++ post.
Proof.
  induction s as [|c s IH]; simpl.
  - rewrite orb_false_r bool_decide_eq_true. split.
    + intros [post Hpost]. by exists [], post.
    + intros (pre & post & H). symmetry in H.
      apply app_eq_nil in H as [-> [-> ->]%app_eq_nil]. by exists [].
  - rewrite orb_true_iff bool_decide_eq_true IH. split.
    + intros [[post Hpost] | (pre & post & ->)].
      * by exists [], post.
      * by exists (c :: pre), post.
    + intros (pre & post & H). destruct pre as [|d pre]; simpl in H.
      * left. by exists post.
      * right. injection H as -> ->. by exists pre, post.
Qed.

Lemma placeholders_differ (cfg : Config) (error : JsError) :
  modelNotFoundText cfg ≠ genericErrorText error
  ∧ modelNotFoundText cfg ≠ connectionRefusedText cfg
  ∧ connectionRefusedText cfg ≠ genericErrorText error.
Proof.
  rewrite /modelNotFoundText /genericErrorText /connectionRefusedText.
  split; [|split]; intros H.
  - apply (f_equal (λ l, l !! 8%nat)) in H. by vm_compute in H.
  - apply (f_equal (λ l, l !! 8%nat)) in H. by vm_compute in H.
  - apply (f_equal (λ l, l !! 18%nat)) in H. by vm_compute in H.
Qed.

(** Which placeholder a failed request gives can be read from the text: the
    three placeholders are different strings. The gateway returns the one
    for a missing model exactly when the error has no code ECONNREFUSED and
    its message contains, at any place, [pull <model>: file does not exist]
    for the configured model; an error without a message gets the generic
    one. *)
Theorem model_not_found_iff (cfg : Config) (backend : Backend) (history : MessageList)
    (currentAgent systemPrompt : jsstring) (st : RunState) (error : JsError) :
  backend (length (requests st)) (chatRequest cfg history currentAgent systemPrompt)
    = Throw error →
  ∃ text st',
    sendMessageToAgent cfg backend history currentAgent systemPrompt st = (Normal text, st')
    ∧ (text = connectionRefusedText cfg ↔ err_code error = Some (lit "ECONNREFUSED"))
    ∧ (text = modelNotFoundText cfg
       ↔ err_code error ≠ Some (lit "ECONNREFUSED")
         ∧ ∃ pre post,
             err_message error
             = Some (pre ++ (lit "pull " ++ ollamaModel cfg ++ lit ": file does not exist")
                         ++ post))
    ∧ (err_message error = None → err_code error ≠ Some (lit "ECONNREFUSED") →
         text = lit "(Error: Could not generate response - undefined)").
Proof.
  intros Hthrow. eexists _, _.
  rewrite sendMessageToAgent_eq Hthrow /=. split; [done|].
  destruct (placeholders_differ cfg error) as (Hmg & Hmc & Hcg).
  assert (reportsMissingModel cfg error
          ↔ ∃ pre post,
              err_message error
              = Some (pre ++ (lit "pull " ++ ollamaModel cfg ++ lit ": file does not exist")
                          ++ post)) as Hrep.
  { rewrite /reportsMissingModel. split.
    - intros (m & Hm & (pre & post & ->)%includes_spec). eauto.
    - intros (pre & post & Hm). eexists. split; [done|]. apply includes_spec. eauto. }
  destruct (errorText_cases cfg error) as (H1 & H2 & H3).
  destruct (decide (err_code error = Some (lit "ECONNREFUSED"))) as [Hc|Hc].
  - rewrite (H1 Hc). split; [done|]. split; [|done].
    split; [by intros ?%symmetry|]. by intros [? _].
  - assert (reportsMissingModel cfg error ∨ ¬ reportsMissingModel cfg error) as [Hm|Hm].
    { rewrite /reportsMissingModel. destruct (err_message error) as [m|].
      - destruct (includes m (lit "pull " ++ ollamaModel cfg ++ lit ": file does not exist"))
          eqn:Hinc.
        + left. eauto.
        + right. intros (m' & [= <-] & Hinc'). congruence.
      - right. by intros (m' & ? & _). }
    + rewrite (H2 Hc Hm). split; [done|]. split; [by rewrite -Hrep|].
      intros Hnone. destruct Hm as (m & Hm & _). congruence.
    + rewrite (H3 Hc Hm). split; [split; [by intros ?%symmetry|done]|].
      split; [|by intros Hnone _; rewrite /genericErrorText Hnone].
      split; [by intros ?%symmetry|]. intros [_ ?%Hrep]. done.
Qed.

Lemma model_not_found_iff_witness :
  let cfg := Examples.annBob in
  let st := Examples.seeded in
  Examples.down (length (requests st)) (chatRequest cfg (chatHistory st) Examples.bob [])
    = Throw Examples.refused
  ∧ ∃ text st',
      sendMessageToAgent cfg Examples.down (chatHistory st) Examples.bob [] st
        = (Normal text, st')
      ∧ (text = connectionRefusedText cfg
         ↔ err_code Examples.refused = Some (lit "ECONNREFUSED"))
      ∧ (text = modelNotFoundText cfg
         ↔ err_code Examples.refused ≠ Some (lit "ECONNREFUSED")
           ∧ ∃ pre post,
               err_message Examples.refused
               = Some (pre ++ (lit "pull " ++ ollamaModel cfg ++ lit ": file does not exist")
                           ++ post))
      ∧ (err_message Examples.refused = None →
         err_code Examples.refused ≠ Some (lit "ECONNREFUSED") →
           text = lit "(Error: Could not generate response - undefined)").
Proof.
  intros cfg st. split; [reflexivity|].
  apply (model_not_found_iff cfg Examples.down (chatHistory st) Examples.bob [] st
           Examples.refused).
  reflexivity.
Defined.

(** * The older scripts *)

(** ** Their turns and their timer *)

Lemma older_onError_eq {G} (cfg : Config) (error : JsError) (st : Older.State G) :
  Older.onError cfg error st
  = (Normal (errorText cfg error),
     {| Older.chatHistory := Older.chatHistory st; Older.turnCount := Older.turnCount st;
        Older.requests := Older.requests st;
        Older.terminal := Older.terminal st
          ++ [console_error (nl ++ lit "Error fetching from Ollama API: "
                                ++ template (err_message error))];
        Older.more := Older.more st |}).
Proof.
  rewrite /Older.onError /errorText /mbind /Older.MS_bind /Older.emit /mret /Older.MS_ret /=.
  rewrite /connectionRefusedText /modelNotFoundText /genericErrorText.
  case_bool_decide; [done|].
  by destruct (from_option _ false (err_message error)).
Qed.

Section OlderTurns.

Context {G : Type}.
Variable cfg : Config.
Variable backend : Older.Backend.
Variable requestOf : list Older.Entry → Z → Older.Request.

Lemma olderAfterTurns_turnCount (k : nat) (idx : Z) (st : Older.State G) :
  Older.turnCount (olderAfterTurns cfg backend requestOf k idx st)
  = Older.turnCount st + Z.of_nat k.
Proof.
  revert idx st. induction k as [|k IH]; intros idx st; simpl; [lia|].
  rewrite IH /=. lia.
Qed.

Lemma olderAfterTurns_more (k : nat) (idx : Z) (st : Older.State G) :
  Older.more (olderAfterTurns cfg backend requestOf k idx st) = Older.more st.
Proof.
  revert idx st. induction k as [|k IH]; intros idx st; simpl; [done|]. by rewrite IH.
Qed.

Lemma olderAfterTurns_history_length (k : nat) (idx : Z) (st : Older.State G) :
  length (Older.chatHistory (olderAfterTurns cfg backend requestOf k idx st))
  = (length (Older.chatHistory st) + k)%nat.
Proof.
  revert idx st. induction k as [|k IH]; intros idx st; simpl; [lia|].
  rewrite IH /= length_app /=. lia.
Qed.

Lemma olderAfterTurns_requests_length (k : nat) (idx : Z) (st : Older.State G) :
  length (Older.requests (olderAfterTurns cfg backend requestOf k idx st))
  = (length (Older.requests st) + k)%nat.
Proof.
  revert idx st. induction k as [|k IH]; intros idx st; simpl; [lia|].
  rewrite IH /= length_app /=. lia.
Qed.

Lemma olderAfterTurns_history_prefix (k : nat) (idx : Z) (st : Older.State G) :
  Older.chatHistory st `prefix_of` Older.chatHistory (olderAfterTurns cfg backend requestOf k idx st).
Proof.
  revert idx st. induction k as [|k IH]; intros idx st; simpl; [done|].
  etrans; [|apply IH]. simpl. by apply prefix_app_r.
Qed.

Lemma olderAfterTurns_requests_prefix (k : nat) (idx : Z) (st : Older.State G) :
  Older.requests st `prefix_of` Older.requests (olderAfterTurns cfg backend requestOf k idx st).
Proof.
  revert idx st. induction k as [|k IH]; intros idx st; simpl; [done|].
  etrans; [|apply IH]. simpl. by apply prefix_app_r.
Qed.

(** The [i]-th of [k] turns: its request, over the history before it, and
    its entry. *)
Lemma olderAfterTurns_turn (k : nat) (idx : Z) (st : Older.State G) (i : nat) :
  (i < k)%nat →
  let final := olderAfterTurns cfg backend requestOf k idx st in
  let agent := agentOfTurn idx i in
  let request :=
    requestOf (take (length (Older.chatHistory st) + i) (Older.chatHistory final)) agent in
  Older.requests final !! (length (Older.requests st) + i)%nat = Some request
  ∧ Older.chatHistory final !! (length (Older.chatHistory st) + i)%nat
    = Some {| Older.sender := nameOf cfg agent;
              Older.text :=
                olderTurnText cfg (backend (length (Older.requests st) + i)%nat request) |}.
Proof.
  revert idx st i. induction k as [|k IH]; intros idx st i Hi; [lia|].
  destruct i as [|i].
  - cbn zeta. rewrite !Nat.add_0_r. simpl agentOfTurn. simpl olderAfterTurns.
    set (st1 := olderAfterTurn _ _ _ _ _).
    pose proof (olderAfterTurns_history_prefix k (otherAgent idx) st1) as [t1 Ht1].
    pose proof (olderAfterTurns_requests_prefix k (otherAgent idx) st1) as [t2 Ht2].
    rewrite Ht1 Ht2 /st1 /= -!app_assoc.
    rewrite take_app_length /=.
    by rewrite !list_lookup_middle.
  - cbn zeta. simpl olderAfterTurns.
    set (st1 := olderAfterTurn _ _ _ _ _).
    destruct (IH (otherAgent idx) st1 i ltac:(lia)) as [Hreq Hent].
    assert (length (Older.chatHistory st1) = S (length (Older.chatHistory st))) as Hl1
      by (rewrite /st1 /= length_app /=; lia).
    assert (length (Older.requests st1) = S (length (Older.requests st))) as Hl2
      by (rewrite /st1 /= length_app /=; lia).
    rewrite Hl1 Hl2 in Hreq Hent.
    replace (length (Older.chatHistory st) + S i)%nat
      with (S (length (Older.chatHistory st)) + i)%nat by lia.
    replace (length (Older.requests st) + S i)%nat
      with (S (length (Older.requests st)) + i)%nat by lia.
    replace (agentOfTurn idx (S i)) with (agentOfTurn (otherAgent idx) i); [done|].
    clear. induction i as [|i IHi]; simpl; [done|]. by rewrite IHi.
Qed.

(** The timer of a script whose [autoChat] makes a turn below the cap of
    ten while [running] holds of its own globals, and stops at the cap. *)
Variable autoChat : Z → Older.MS G (option Z).
Variable running : G → Prop.
Variable stopped : Older.State G → Older.State G.

Hypothesis autoChat_turn : ∀ idx st,
  running (Older.more st) → Older.turnCount st < 10 →
  autoChat idx st
  = (Normal (Some (otherAgent idx)), olderAfterTurn cfg backend requestOf st idx).

Hypothesis autoChat_stop : ∀ idx st,
  10 ≤ Older.turnCount st → autoChat idx st = (Normal None, stopped st).

Lemma older_eventLoop_run (fuel : nat) (idx : Z) (st : Older.State G) :
  running (Older.more st) →
  (Z.to_nat (10 - Older.turnCount st) < fuel)%nat →
  Older.eventLoop autoChat fuel (Some idx) st
  = Some (Normal (),
          stopped (olderAfterTurns cfg backend requestOf
                     (Z.to_nat (10 - Older.turnCount st)) idx st)).
Proof.
  remember (Z.to_nat (10 - Older.turnCount st)) as k eqn:Hk.
  revert fuel idx st Hk. induction k as [|k IH]; intros fuel idx st Hk Hrun Hfuel.
  - destruct fuel as [|fuel]; [lia|]. simpl.
    rewrite autoChat_stop; [lia|]. by destruct fuel.
  - destruct fuel as [|fuel]; [lia|]. simpl.
    rewrite autoChat_turn; [done|lia|].
    apply IH; [simpl; lia|done|lia].
Qed.

Lemma older_eventLoop_fuel (fuel fuel' : nat) (timer : option Z) (st : Older.State G) r :
  Older.eventLoop autoChat fuel timer st = Some r →
  (fuel ≤ fuel')%nat →
  Older.eventLoop autoChat fuel' timer st = Some r.
Proof.
  revert fuel' timer st. induction fuel as [|fuel IH]; intros fuel' timer st H Hle.
  - destruct timer; [done|]. by destruct fuel'.
  - destruct timer as [idx|]; [|by destruct fuel'].
    destruct fuel' as [|fuel']; [lia|]. simpl in *.
    destruct (autoChat idx st) as [[next|e] st']; [|done].
    apply IH; [done|lia].
Qed.

End OlderTurns.

(** The loop that fills the history from the initial messages. *)
Lemma pushInitialMessages_from {G} (rest : MessageList) (acc : Older.MS G ())
    (st : Older.State G) (history : list Older.Entry) (lines : list TermEvent) :
  acc st
  = (Normal (),
     {| Older.chatHistory := history; Older.turnCount := Older.turnCount st;
        Older.requests := Older.requests st; Older.terminal := lines;
        Older.more := Older.more st |}) →
  ∃ lines',
    foldl (λ (acc : Older.MS G ()) msg,
             _ ← acc;
             _ ← Older.chatHistory_push
                   {| Older.sender := msg_name msg; Older.text := msg_message msg |};
             Older.emit (console_log (Older.boldLine (msg_name msg) (msg_message msg))))
          acc rest st
    = (Normal (),
       {| Older.chatHistory := history ++ (entryOfMessage <$> rest);
          Older.turnCount := Older.turnCount st;
          Older.requests := Older.requests st;
          Older.terminal := lines';
          Older.more := Older.more st |}).
Proof.
  revert acc history lines. induction rest as [|msg rest IH]; intros acc history lines Hacc.
  - exists lines. by rewrite /= app_nil_r.
  - simpl.
    edestruct (IH (_ ← acc;
                   _ ← Older.chatHistory_push
                         {| Older.sender := msg_name msg; Older.text := msg_message msg |};
                   Older.emit (console_log (Older.boldLine (msg_name msg) (msg_message msg))))
                 (history ++ [entryOfMessage msg])) as [lines' Hlines].
    { rewrite {1}/mbind {1}/Older.MS_bind Hacc.
      rewrite /mbind /Older.MS_bind /Older.chatHistory_push /Older.emit /=. reflexivity. }
    exists lines'. by rewrite Hlines -app_assoc.
Qed.

Lemma pushInitialMessages_eq {G} (initial : MessageList) (st : Older.State G) :
  ∃ lines,
    Older.pushInitialMessages initial st
    = (Normal (),
       {| Older.chatHistory := Older.chatHistory st ++ (entryOfMessage <$> initial);
          Older.turnCount := Older.turnCount st;
          Older.requests := Older.requests st;
          Older.terminal := lines;
          Older.more := Older.more st |}).
Proof.
  apply (pushInitialMessages_from initial _ st (Older.chatHistory st) (Older.terminal st)).
  rewrite /mret /Older.MS_ret. by destruct st.
Qed.

(** ** The script with a role per viewpoint and no trimming *)

Section Part001Facts.

Variable cfg : Config.
Variable backend : Older.Backend.

Lemma part001_buildMessages_eq (history : list Older.Entry)
    (currentAgent systemPrompt : jsstring) :
  Part001.buildMessages history currentAgent systemPrompt
  = systemPart systemPrompt ++ (part001Labelled currentAgent <$> history).
Proof.
  rewrite /Part001.buildMessages /systemPart
    (foldl_push (part001Labelled currentAgent)).
  by destruct (truthy systemPrompt).
Qed.

Lemma part001_sendMessageToAgent_eq (history : list Older.Entry)
    (currentAgent systemPrompt : jsstring) (st : Older.State ()) :
  let request := Part001.chatRequest cfg history currentAgent systemPrompt in
  let outcome := backend (length (Older.requests st)) request in
  Part001.sendMessageToAgent cfg backend history currentAgent systemPrompt st
  = (Normal (olderTurnText cfg outcome),
     {| Older.chatHistory := Older.chatHistory st; Older.turnCount := Older.turnCount st;
        Older.requests := Older.requests st ++ [request];
        Older.terminal := Older.terminal st
          ++ match outcome with
             | Normal _ => []
             | Throw error =>
                 [console_error (nl ++ lit "Error fetching from Ollama API: "
                                    ++ template (err_message error))]
             end;
        Older.more := Older.more st |}).
Proof.
  rewrite /Part001.sendMessageToAgent /Older.try_catch /mbind /Older.MS_bind
    /Older.client_chat /=.
  destruct (backend _ _) as [response|error]; simpl.
  - by rewrite /mret /Older.MS_ret app_nil_r.
  - by rewrite older_onError_eq.
Qed.

Lemma part001_autoChat_turn (idx : Z) (st : Older.State ()) :
  True →
  Older.turnCount st < 10 →
  Part001.autoChat cfg backend idx st
  = (Normal (Some (otherAgent idx)), olderAfterTurn cfg backend (part001Request cfg) st idx).
Proof.
  intros _ Hlt.
  rewrite /Part001.autoChat /Older.MAX_TURNS {1}/mbind {1}/Older.MS_bind /Older.get.
  destruct (Z.leb_spec 10 (Older.turnCount st)) as [?|_]; [lia|].
  rewrite /mbind /Older.MS_bind /Older.incr_turnCount /Older.simulateTyping /Older.emit
    /Older.chatHistory_push /=.
  rewrite part001_sendMessageToAgent_eq /= /olderAfterTurn /olderTurnEvents /part001Request
    /nameOf /systemOf /otherAgent /mret /Older.MS_ret.
  by rewrite -!app_assoc.
Qed.

Lemma part001_autoChat_stop (idx : Z) (st : Older.State ()) :
  10 ≤ Older.turnCount st →
  Part001.autoChat cfg backend idx st = (Normal None, olderStopped () st).
Proof.
  intros Hge.
  rewrite /Part001.autoChat /Older.MAX_TURNS {1}/mbind {1}/Older.MS_bind /Older.get.
  destruct (Z.leb_spec 10 (Older.turnCount st)) as [_|?]; [|lia].
  rewrite /mbind /Older.MS_bind /Older.emit /mret /Older.MS_ret /olderStopped /=.
  by destruct (Older.more st).
Qed.

(** The start over a seed that is not empty. *)
Lemma part001_start_eq :
  initialMessages cfg ≠ [] →
  ∃ first st0,
    (_ ← Older.pushInitialMessages (initialMessages cfg); Older.nextAgentIndex cfg)
      Part001.initialState = (Normal first, st0)
    ∧ (first = 1 ∨ first = 2)
    ∧ Older.chatHistory st0 = entryOfMessage <$> initialMessages cfg
    ∧ Older.turnCount st0 = 0
    ∧ Older.requests st0 = [].
Proof.
  intros Hne.
  destruct (pushInitialMessages_eq (initialMessages cfg) Part001.initialState) as [lines Hp].
  rewrite {1}/mbind {1}/Older.MS_bind Hp /Older.nextAgentIndex.
  destruct (last (initialMessages cfg)) as [lastMsg|] eqn:Hlast;
    [|by apply last_None in Hlast].
  destruct (str_eq _ (agent1Name cfg)); [by eexists _, _; eauto 10|].
  destruct (str_eq _ (agent2Name cfg)); by eexists _, _; eauto 10.
Qed.

Lemma part001_runChat_eq :
  initialMessages cfg ≠ [] →
  ∃ first st0,
    (first = 1 ∨ first = 2)
    ∧ Older.chatHistory st0 = entryOfMessage <$> initialMessages cfg
    ∧ Older.turnCount st0 = 0
    ∧ Older.requests st0 = []
    ∧ ∀ fuel, (10 < fuel)%nat →
        Part001.runChat cfg backend fuel
        = Some (Normal (),
                olderStopped () (olderAfterTurns cfg backend (part001Request cfg) 10 first st0)).
Proof.
  intros Hne.
  destruct (part001_start_eq Hne) as (first & st0 & Hstart & Hfirst & Hh & Ht & Hr).
  exists first, st0. repeat split; try done.
  intros fuel Hfuel. rewrite /Part001.runChat Hstart.
  rewrite (older_eventLoop_run cfg backend (part001Request cfg) _ (λ _, True) (olderStopped ())
             part001_autoChat_turn part001_autoChat_stop);
    [done | rewrite Ht /=; lia | by rewrite Ht].
Qed.

End Part001Facts.

(** The older script with a role per viewpoint makes ten turns whatever the
    settings say ([maxTurns] is not read): over a seed that is not empty the
    run ends without an exception with ten entries appended after the seed
    and ten requests. Nothing is trimmed ([chatMaxLength] is not read
    either): the request of turn [i] carries the system message, if any,
    and then the whole history as it is before the turn, so it has one
    message more at each turn; the entry of turn [i] carries the name of the
    agent of that turn. *)
Theorem part001_run_of_ten (cfg : Config) (backend : Older.Backend) :
  initialMessages cfg ≠ [] →
  ∃ first final,
    (first = 1 ∨ first = 2)
    ∧ (∀ fuel, (10 < fuel)%nat →
         Part001.runChat cfg backend fuel = Some (Normal (), final))
    ∧ length (Older.chatHistory final) = (length (initialMessages cfg) + 10)%nat
    ∧ length (Older.requests final) = 10%nat
    ∧ take (length (initialMessages cfg)) (Older.chatHistory final)
      = entryOfMessage <$> initialMessages cfg
    ∧ ∀ i, (i < 10)%nat →
        let agent := agentOfTurn first i in
        let before := take (length (initialMessages cfg) + i) (Older.chatHistory final) in
        ∃ request entry,
          Older.requests final !! i = Some request
          ∧ Older.messages request
            = systemPart (systemOf cfg agent)
              ++ (part001Labelled (nameOf cfg agent) <$> before)
          ∧ Z.of_nat (length (Older.messages request))
            = systemSlot (systemOf cfg agent) + Z.of_nat (length (initialMessages cfg))
              + Z.of_nat i
          ∧ Older.chatHistory final !! (length (initialMessages cfg) + i)%nat = Some entry
          ∧ Older.sender entry = nameOf cfg agent.
Proof.
  intros Hne.
  destruct (part001_runChat_eq cfg backend Hne) as (first & st0 & Hfirst & Hh & Ht & Hr & Hrun).
  assert (length (Older.chatHistory st0) = length (initialMessages cfg)) as Hn0
    by by rewrite Hh length_fmap.
  pose proof (olderAfterTurns_history_length cfg backend (part001Request cfg) 10 first st0)
    as Hlh.
  pose proof (olderAfterTurns_requests_length cfg backend (part001Request cfg) 10 first st0)
    as Hlr.
  pose proof (olderAfterTurns_history_prefix cfg backend (part001Request cfg) 10 first st0)
    as [t Hpre].
  pose proof (olderAfterTurns_turn cfg backend (part001Request cfg) 10 first st0) as Hturn.
  cbn zeta in Hturn. rewrite Hn0 Hr in Hlh Hlr Hturn.
  remember (olderAfterTurns cfg backend (part001Request cfg) 10 first st0) as fin eqn:Hfin.
  clear Hfin.
  exists first, (olderStopped () fin). split; [done|]. split; [exact Hrun|].
  rewrite /olderStopped. cbn [Older.chatHistory Older.requests].
  split; [exact Hlh|]. split; [exact Hlr|]. split.
  - by rewrite Hpre -Hn0 take_app_length.
  - intros i Hi. destruct (Hturn i Hi) as [Hreq Hent].
    eexists _, _. split; [exact Hreq|].
    rewrite /part001Request. cbn [Older.messages Part001.chatRequest].
    rewrite part001_buildMessages_eq.
    split; [done|]. split; [|split; [exact Hent|done]].
    rewrite length_app length_fmap length_take Nat2Z.inj_add systemPart_length.
    rewrite Hlh. lia.
Qed.

Lemma part001_run_of_ten_witness :
  let cfg := Examples.annBob in
  initialMessages cfg ≠ []
  ∧ ∃ first final,
      (first = 1 ∨ first = 2)
      ∧ (∀ fuel, (10 < fuel)%nat →
           Part001.runChat cfg Examples.olderGreeting fuel = Some (Normal (), final))
      ∧ length (Older.chatHistory final) = (length (initialMessages cfg) + 10)%nat
      ∧ length (Older.requests final) = 10%nat
      ∧ take (length (initialMessages cfg)) (Older.chatHistory final)
        = entryOfMessage <$> initialMessages cfg
      ∧ ∀ i, (i < 10)%nat →
          let agent := agentOfTurn first i in
          let before := take (length (initialMessages cfg) + i) (Older.chatHistory final) in
          ∃ request entry,
            Older.requests final !! i = Some request
            ∧ Older.messages request
              = systemPart (systemOf cfg agent)
                ++ (part001Labelled (nameOf cfg agent) <$> before)
            ∧ Z.of_nat (length (Older.messages request))
              = systemSlot (systemOf cfg agent) + Z.of_nat (length (initialMessages cfg))
                + Z.of_nat i
            ∧ Older.chatHistory final !! (length (initialMessages cfg) + i)%nat = Some entry
            ∧ Older.sender entry = nameOf cfg agent.
Proof.
  intros cfg. split; [discriminate|].
  apply (part001_run_of_ten cfg Examples.olderGreeting). discriminate.
Defined.

(** In that script the content of an answer becomes the text of the turn as
    it is, white space at its ends included: nothing is trimmed, so an
    answer of blanks gives an entry of blanks. The fallback sentence stands
    in for an absent content. *)
Theorem part001_content_verbatim (cfg : Config) (backend : Older.Backend) (idx : Z)
    (st : Older.State ()) (response : option ChatResponse) :
  Older.turnCount st < 10 →
  backend (length (Older.requests st))
    (Part001.chatRequest cfg (Older.chatHistory st) (nameOf cfg idx) (systemOf cfg idx))
    = Normal response →
  ∃ text st',
    Part001.autoChat cfg backend idx st = (Normal (Some (otherAgent idx)), st')
    ∧ Older.chatHistory st'
      = Older.chatHistory st ++ [{| Older.sender := nameOf cfg idx; Older.text := text |}]
    ∧ (∀ c, contentOf response = Some c → text = c)
    ∧ (contentOf response = None → text = fallbackText).
Proof.
  intros Hlt Hok. eexists _, _.
  split; [by apply part001_autoChat_turn|].
  rewrite /= /part001Request Hok /=. split; [done|].
  destruct response as [[[[[c|]]|]]|]; simpl; split; intros; by simplify_eq.
Qed.

Lemma part001_content_verbatim_witness :
  let cfg := Examples.annBob in
  let st := Part001.initialState in
  let response := Some {| resp_message := Some {| resp_content := Some (lit " hello ") |} |} in
  Older.turnCount st < 10
  ∧ Examples.olderGreeting (length (Older.requests st))
      (Part001.chatRequest cfg (Older.chatHistory st) (nameOf cfg 2) (systemOf cfg 2))
    = Normal response
  ∧ ∃ text st',
      Part001.autoChat cfg Examples.olderGreeting 2 st = (Normal (Some (otherAgent 2)), st')
      ∧ Older.chatHistory st'
        = Older.chatHistory st ++ [{| Older.sender := nameOf cfg 2; Older.text := text |}]
      ∧ (∀ c, contentOf response = Some c → text = c)
      ∧ (contentOf response = None → text = fallbackText).
Proof.
  intros cfg st response. split; [reflexivity|]. split; [reflexivity|].
  apply (part001_content_verbatim cfg Examples.olderGreeting 2 st response); reflexivity.
Defined.

(** ** [src/main.mjs] *)

Section MainMjsFacts.

Variable cfg : Config.
Variable backend : Older.Backend.

Lemma mainMjs_buildMessages_eq (prompt : jsstring) (history : list Older.Entry)
    (systemPrompt : jsstring) :
  MainMjs.buildMessages cfg prompt history systemPrompt
  = systemPart systemPrompt ++ (mainMjsLabelled cfg <$> history)
      ++ [{| role := user; content := prompt |}].
Proof.
  rewrite /MainMjs.buildMessages /systemPart (foldl_push (mainMjsLabelled cfg)).
  destruct (truthy systemPrompt); by rewrite -?app_assoc.
Qed.

Lemma mainMjs_sendMessageToAgent_eq (prompt : jsstring) (history : list Older.Entry)
    (systemPrompt : jsstring) (st : Older.State bool) :
  let request := MainMjs.chatRequest cfg prompt history systemPrompt in
  let outcome := backend (length (Older.requests st)) request in
  MainMjs.sendMessageToAgent cfg backend prompt history systemPrompt st
  = (Normal (olderTurnText cfg outcome),
     {| Older.chatHistory := Older.chatHistory st; Older.turnCount := Older.turnCount st;
        Older.requests := Older.requests st ++ [request];
        Older.terminal := Older.terminal st
          ++ match outcome with
             | Normal _ => []
             | Throw error =>
                 [console_error (nl ++ lit "Error fetching from Ollama API: "
                                    ++ template (err_message error))]
             end;
        Older.more := Older.more st |}).
Proof.
  rewrite /MainMjs.sendMessageToAgent /Older.try_catch /mbind /Older.MS_bind
    /Older.client_chat /=.
  destruct (backend _ _) as [response|error]; simpl.
  - by rewrite /mret /Older.MS_ret app_nil_r.
  - by rewrite older_onError_eq.
Qed.

Lemma mainMjs_autoChat_turn (idx : Z) (st : Older.State bool) :
  Older.more st = true →
  Older.turnCount st < 10 →
  MainMjs.autoChat cfg backend idx st
  = (Normal (Some (otherAgent idx)), olderAfterTurn cfg backend (mainMjsRequest cfg) st idx).
Proof.
  intros Hchat Hlt.
  rewrite /MainMjs.autoChat /Older.MAX_TURNS /MainMjs.isChatting
    {1}/mbind {1}/Older.MS_bind /Older.get Hchat.
  destruct (Z.leb_spec 10 (Older.turnCount st)) as [?|_]; [lia|].
  rewrite /mbind /Older.MS_bind /Older.incr_turnCount /Older.simulateTyping /Older.emit
    /Older.chatHistory_push /=.
  rewrite mainMjs_sendMessageToAgent_eq /= /olderAfterTurn /olderTurnEvents /mainMjsRequest
    /mainMjsPrompt /nameOf /systemOf /otherAgent /mret /Older.MS_ret.
  by rewrite -!app_assoc.
Qed.

(** At the cap, or when [isChatting] is off, a call only prints the closing
    line and turns [isChatting] off. *)
Lemma mainMjs_autoChat_off (idx : Z) (st : Older.State bool) :
  Older.more st = false ∨ 10 ≤ Older.turnCount st →
  MainMjs.autoChat cfg backend idx st = (Normal None, olderStopped false st).
Proof.
  intros Hoff.
  rewrite /MainMjs.autoChat /Older.MAX_TURNS /MainMjs.isChatting
    {1}/mbind {1}/Older.MS_bind /Older.get.
  assert (negb (Older.more st) || (10 <=? Older.turnCount st) = true) as ->.
  { destruct Hoff as [-> | Hge]; [done|].
    apply orb_true_iff. right. by apply Z.leb_le. }
  by rewrite /mbind /Older.MS_bind /Older.emit /Older.set_more /mret /Older.MS_ret.
Qed.

Lemma mainMjs_autoChat_stop (idx : Z) (st : Older.State bool) :
  10 ≤ Older.turnCount st →
  MainMjs.autoChat cfg backend idx st = (Normal None, olderStopped false st).
Proof. intros H. apply mainMjs_autoChat_off. by right. Qed.

(** [startChat] over a seed that is not empty. *)
Lemma mainMjs_startChat_eq :
  initialMessages cfg ≠ [] →
  ∃ first st0,
    MainMjs.startChat cfg MainMjs.initialState = (Normal (Some first), st0)
    ∧ (first = 1 ∨ first = 2)
    ∧ Older.chatHistory st0 = entryOfMessage <$> initialMessages cfg
    ∧ Older.turnCount st0 = 0
    ∧ Older.requests st0 = []
    ∧ Older.more st0 = true.
Proof.
  intros Hne.
  rewrite /MainMjs.startChat {1}/mbind {1}/Older.MS_bind /Older.set_more.
  cbn [Older.chatHistory Older.turnCount Older.requests Older.terminal MainMjs.initialState].
  destruct (pushInitialMessages_eq (initialMessages cfg)
              {| Older.chatHistory := []; Older.turnCount := 0; Older.requests := [];
                 Older.terminal := []; Older.more := true |}) as [lines Hp].
  rewrite {1}/mbind {1}/Older.MS_bind Hp /Older.nextAgentIndex.
  destruct (last (initialMessages cfg)) as [lastMsg|] eqn:Hlast;
    [|by apply last_None in Hlast].
  rewrite /mbind /Older.MS_bind /mret /Older.MS_ret /Older.emit /=.
  destruct (str_eq _ (agent1Name cfg)); [by eexists _, _; eauto 10|].
  destruct (str_eq _ (agent2Name cfg)); by eexists _, _; eauto 10.
Qed.

Lemma mainMjs_runChat_eq :
  initialMessages cfg ≠ [] →
  ∃ first st0,
    (first = 1 ∨ first = 2)
    ∧ Older.chatHistory st0 = entryOfMessage <$> initialMessages cfg
    ∧ Older.turnCount st0 = 0
    ∧ Older.requests st0 = []
    ∧ ∀ fuel, (10 < fuel)%nat →
        MainMjs.runChat cfg backend fuel
        = Some (Normal (),
                olderStopped false
                  (olderAfterTurns cfg backend (mainMjsRequest cfg) 10 first st0)).
Proof.
  intros Hne.
  destruct (mainMjs_startChat_eq Hne) as (first & st0 & Hstart & Hfirst & Hh & Ht & Hr & Hm).
  exists first, st0. repeat split; try done.
  intros fuel Hfuel. rewrite /MainMjs.runChat Hstart.
  rewrite (older_eventLoop_run cfg backend (mainMjsRequest cfg) _ (λ g, g = true)
             (olderStopped false) mainMjs_autoChat_turn mainMjs_autoChat_stop);
    [done | rewrite Ht /=; lia | by rewrite Ht].
Qed.

End MainMjsFacts.

(** [src/main.mjs] makes ten turns whatever the settings say: over a seed
    that is not empty the run ends without an exception with ten entries
    appended and ten requests, and [isChatting], set by [startChat], is off
    at the end. Nothing is trimmed: the request of turn [i] carries the
    system message, if any, the whole history before the turn, and one more
    [user] message, the prompt made from the last entry of that history. *)
Theorem mainMjs_run_of_ten (cfg : Config) (backend : Older.Backend) :
  initialMessages cfg ≠ [] →
  ∃ first final,
    (first = 1 ∨ first = 2)
    ∧ (∀ fuel, (10 < fuel)%nat →
         MainMjs.runChat cfg backend fuel = Some (Normal (), final))
    ∧ length (Older.chatHistory final) = (length (initialMessages cfg) + 10)%nat
    ∧ length (Older.requests final) = 10%nat
    ∧ MainMjs.isChatting final = false
    ∧ take (length (initialMessages cfg)) (Older.chatHistory final)
      = entryOfMessage <$> initialMessages cfg
    ∧ ∀ i, (i < 10)%nat →
        let agent := agentOfTurn first i in
        let before := take (length (initialMessages cfg) + i) (Older.chatHistory final) in
        ∃ request entry,
          Older.requests final !! i = Some request
          ∧ Older.messages request
            = systemPart (systemOf cfg agent)
              ++ (mainMjsLabelled cfg <$> before)
              ++ [{| role := user; content := mainMjsPrompt cfg before agent |}]
          ∧ Z.of_nat (length (Older.messages request))
            = systemSlot (systemOf cfg agent) + Z.of_nat (length (initialMessages cfg))
              + Z.of_nat i + 1
          ∧ Older.chatHistory final !! (length (initialMessages cfg) + i)%nat = Some entry
          ∧ Older.sender entry = nameOf cfg agent.
Proof.
  intros Hne.
  destruct (mainMjs_runChat_eq cfg backend Hne) as (first & st0 & Hfirst & Hh & Ht & Hr & Hrun).
  assert (length (Older.chatHistory st0) = length (initialMessages cfg)) as Hn0
    by by rewrite Hh length_fmap.
  pose proof (olderAfterTurns_history_length cfg backend (mainMjsRequest cfg) 10 first st0)
    as Hlh.
  pose proof (olderAfterTurns_requests_length cfg backend (mainMjsRequest cfg) 10 first st0)
    as Hlr.
  pose proof (olderAfterTurns_history_prefix cfg backend (mainMjsRequest cfg) 10 first st0)
    as [t Hpre].
  pose proof (olderAfterTurns_turn cfg backend (mainMjsRequest cfg) 10 first st0) as Hturn.
  cbn zeta in Hturn. rewrite Hn0 Hr in Hlh Hlr Hturn.
  remember (olderAfterTurns cfg backend (mainMjsRequest cfg) 10 first st0) as fin eqn:Hfin.
  clear Hfin.
  exists first, (olderStopped false fin). split; [done|]. split; [exact Hrun|].
  rewrite /olderStopped /MainMjs.isChatting.
  cbn [Older.chatHistory Older.requests Older.more].
  split; [exact Hlh|]. split; [exact Hlr|]. split; [done|]. split.
  - by rewrite Hpre -Hn0 take_app_length.
  - intros i Hi. destruct (Hturn i Hi) as [Hreq Hent].
    eexists _, _. split; [exact Hreq|].
    rewrite /mainMjsRequest. cbn [Older.messages MainMjs.chatRequest].
    rewrite mainMjs_buildMessages_eq.
    split; [done|]. split; [|split; [exact Hent|done]].
    rewrite !length_app length_fmap length_take !Nat2Z.inj_add systemPart_length.
    rewrite Hlh /=. lia.
Qed.

Lemma mainMjs_run_of_ten_witness :
  let cfg := Examples.annBob in
  initialMessages cfg ≠ []
  ∧ ∃ first final,
      (first = 1 ∨ first = 2)
      ∧ (∀ fuel, (10 < fuel)%nat →
           MainMjs.runChat cfg Examples.olderDown fuel = Some (Normal (), final))
      ∧ length (Older.chatHistory final) = (length (initialMessages cfg) + 10)%nat
      ∧ length (Older.requests final) = 10%nat
      ∧ MainMjs.isChatting final = false
      ∧ take (length (initialMessages cfg)) (Older.chatHistory final)
        = entryOfMessage <$> initialMessages cfg
      ∧ ∀ i, (i < 10)%nat →
          let agent := agentOfTurn first i in
          let before := take (length (initialMessages cfg) + i) (Older.chatHistory final) in
          ∃ request entry,
            Older.requests final !! i = Some request
            ∧ Older.messages request
              = systemPart (systemOf cfg agent)
                ++ (mainMjsLabelled cfg <$> before)
                ++ [{| role := user; content := mainMjsPrompt cfg before agent |}]
            ∧ Z.of_nat (length (Older.messages request))
              = systemSlot (systemOf cfg agent) + Z.of_nat (length (initialMessages cfg))
                + Z.of_nat i + 1
            ∧ Older.chatHistory final !! (length (initialMessages cfg) + i)%nat = Some entry
            ∧ Older.sender entry = nameOf cfg agent.
Proof.
  intros cfg. split; [discriminate|].
  apply (mainMjs_run_of_ten cfg Examples.olderDown). discriminate.
Defined.

(** In [src/main.mjs] the role does not depend on who is about to speak:
    an entry of the history is sent with the role [assistant] exactly when
    its sender is one of the two agents, the other agent included, and with
    the role [user] exactly when it is neither; the context always ends with
    the prompt as a [user] message. *)
Theorem mainMjs_roles (cfg : Config) (prompt : jsstring) (history : list Older.Entry)
    (systemPrompt : jsstring) (j : nat) (entry : Older.Entry) :
  history !! j = Some entry →
  (∃ m,
     MainMjs.buildMessages cfg prompt history systemPrompt
       !! (length (systemPart systemPrompt) + j)%nat = Some m
     ∧ content m = Older.text entry
     ∧ (role m = assistant
        ↔ Older.sender entry = agent1Name cfg ∨ Older.sender entry = agent2Name cfg)
     ∧ (role m = user
        ↔ Older.sender entry ≠ agent1Name cfg ∧ Older.sender entry ≠ agent2Name cfg))
  ∧ last (MainMjs.buildMessages cfg prompt history systemPrompt)
    = Some {| role := user; content := prompt |}.
Proof.
  intros Hj. rewrite mainMjs_buildMessages_eq. split.
  - exists (mainMjsLabelled cfg entry).
    rewrite lookup_app_r; [lia|].
    replace (length (systemPart systemPrompt) + j - length (systemPart systemPrompt))%nat
      with j by lia.
    rewrite lookup_app_l; [rewrite length_fmap; by eapply lookup_lt_Some|].
    rewrite list_lookup_fmap Hj /=. split; [done|]. split; [done|].
    rewrite /str_eq. repeat case_bool_decide; simpl; split; split; try done; tauto.
  - by rewrite !app_assoc last_snoc.
Qed.

Lemma mainMjs_roles_witness :
  let cfg := Examples.annBob in
  let entry := {| Older.sender := Examples.bob; Older.text := lit "hello" |} in
  let history := [entryOfMessage {| msg_name := Examples.ann; msg_message := lit "hi" |}; entry] in
  history !! 1%nat = Some entry
  ∧ (∃ m,
       MainMjs.buildMessages cfg (lit "?") history (agent1System cfg)
         !! (length (systemPart (agent1System cfg)) + 1)%nat = Some m
       ∧ content m = Older.text entry
       ∧ (role m = assistant
          ↔ Older.sender entry = agent1Name cfg ∨ Older.sender entry = agent2Name cfg)
       ∧ (role m = user
          ↔ Older.sender entry ≠ agent1Name cfg ∧ Older.sender entry ≠ agent2Name cfg))
  ∧ last (MainMjs.buildMessages cfg (lit "?") history (agent1System cfg))
    = Some {| role := user; content := lit "?" |}.
Proof.
  intros cfg entry history. split; [reflexivity|].
  apply (mainMjs_roles cfg (lit "?") history (agent1System cfg) 1%nat entry). reflexivity.
Defined.

(** In [src/main.mjs] the last entry of the history goes out twice in the
    request of a turn: as the last message of the history, with its own
    role, and quoted in the prompt that ends the request, which names its
    sender, quotes its text between double quotes and asks the acting agent
    for a response. *)
Theorem mainMjs_last_entry_twice (cfg : Config) (backend : Older.Backend) (idx : Z)
    (st : Older.State bool) (earlier : list Older.Entry) (newest : Older.Entry) :
  MainMjs.isChatting st = true →
  Older.turnCount st < 10 →
  Older.chatHistory st = earlier ++ [newest] →
  ∃ st' request,
    MainMjs.autoChat cfg backend idx st = (Normal (Some (otherAgent idx)), st')
    ∧ Older.requests st' = Older.requests st ++ [request]
    ∧ Older.messages request
      = (systemPart (systemOf cfg idx) ++ (mainMjsLabelled cfg <$> earlier))
        ++ [mainMjsLabelled cfg newest;
            {| role := user;
               content :=
                 Older.sender newest ++ lit " just said: " ++ [34%N] ++ Older.text newest
                   ++ [34%N] ++ lit "." ++ [10%N; 10%N]
                   ++ nameOf cfg idx ++ lit ", what is your response?" |}].
Proof.
  intros Hchat Hlt Hhist.
  eexists _, _. split; [by apply mainMjs_autoChat_turn|]. split; [done|].
  rewrite /mainMjsRequest. cbn [Older.messages MainMjs.chatRequest].
  rewrite mainMjs_buildMessages_eq /mainMjsPrompt Hhist last_snoc fmap_app /=.
  rewrite /MainMjs.promptFor /MainMjs.dquote /nl.
  rewrite -!app_assoc /=. reflexivity.
Qed.

Lemma mainMjs_last_entry_twice_witness :
  let cfg := Examples.annBob in
  let newest := {| Older.sender := Examples.ann; Older.text := lit "hi" |} in
  let st := {| Older.chatHistory := [newest]; Older.turnCount := 0; Older.requests := [];
               Older.terminal := []; Older.more := true |} in
  MainMjs.isChatting st = true
  ∧ Older.turnCount st < 10
  ∧ Older.chatHistory st = [] ++ [newest]
  ∧ ∃ st' request,
      MainMjs.autoChat cfg Examples.olderGreeting 2 st = (Normal (Some (otherAgent 2)), st')
      ∧ Older.requests st' = Older.requests st ++ [request]
      ∧ Older.messages request
        = (systemPart (systemOf cfg 2) ++ (mainMjsLabelled cfg <$> []))
          ++ [mainMjsLabelled cfg newest;
              {| role := user;
                 content :=
                   Older.sender newest ++ lit " just said: " ++ [34%N] ++ Older.text newest
                     ++ [34%N] ++ lit "." ++ [10%N; 10%N]
                     ++ nameOf cfg 2 ++ lit ", what is your response?" |}].
Proof.
  intros cfg newest st.
  split; [reflexivity|]. split; [reflexivity|]. split; [reflexivity|].
  apply (mainMjs_last_entry_twice cfg Examples.olderGreeting 2 st [] newest); reflexivity.
Defined.

(** While [isChatting] is off, [autoChat] of [src/main.mjs] makes no turn,
    below the cap too: a pending call prints the closing line and ends the
    loop with no request sent, the history and [turnCount] as they were and
    [isChatting] off. Only [startChat] turns it on. *)
Theorem mainMjs_not_chatting (cfg : Config) (backend : Older.Backend) (idx : Z)
    (st : Older.State bool) (fuel : nat) :
  MainMjs.isChatting st = false →
  (0 < fuel)%nat →
  ∃ st',
    Older.eventLoop (MainMjs.autoChat cfg backend) fuel (Some idx) st = Some (Normal (), st')
    ∧ Older.requests st' = Older.requests st
    ∧ Older.chatHistory st' = Older.chatHistory st
    ∧ Older.turnCount st' = Older.turnCount st
    ∧ MainMjs.isChatting st' = false
    ∧ Older.terminal st' = Older.terminal st ++ [console_log olderFinishedLine].
Proof.
  intros Hoff Hfuel. destruct fuel as [|fuel]; [lia|].
  exists (olderStopped false st). simpl.
  rewrite mainMjs_autoChat_off; [by left|]. by destruct fuel.
Qed.

Lemma mainMjs_not_chatting_witness :
  let st := MainMjs.initialState in
  MainMjs.isChatting st = false
  ∧ (0 < 1)%nat
  ∧ ∃ st',
      Older.eventLoop (MainMjs.autoChat Examples.annBob Examples.olderGreeting) 1 (Some 1) st
        = Some (Normal (), st')
      ∧ Older.requests st' = Older.requests st
      ∧ Older.chatHistory st' = Older.chatHistory st
      ∧ Older.turnCount st' = Older.turnCount st
      ∧ MainMjs.isChatting st' = false
      ∧ Older.terminal st' = Older.terminal st ++ [console_log olderFinishedLine].
Proof.
  intros st. split; [reflexivity|]. split; [lia|].
  apply (mainMjs_not_chatting Examples.annBob Examples.olderGreeting 1 st 1); [reflexivity|lia].
Defined.

(** ** The terminal during a turn *)


